(** * esp8266uart: the AT command engine of the ESP8266 UART driver

    A shallow embedding of [esp8266uart.py] (MicroPython, pyboard).

    The module is dynamically typed and several of its branches are decided
    by the run-time type of a value ([str] against [bytes], [list] against
    [int]), so the embedding keeps a small universe of Python values and
    gives each built-in operation the module uses its MicroPython meaning,
    including the exception it raises on operands it does not support.

    Effects are the serial port and the clock.  They are threaded through
    an exception-and-state monad over an abstract [Transport]; a scripted
    transport instance is used to run the code on concrete conversations.
    Console output ([print]) is not part of the state: a [print] is modelled
    by the evaluation of its arguments only, which can still raise. *)

From Stdlib Require Import ZArith QArith List String Ascii Bool Lia DecimalString
  DecimalPos.
Import ListNotations.

Local Open Scope string_scope.
Local Open Scope Z_scope.

(** ** Python values and exceptions *)

(** [bytes] is a sequence of bytes.  [str] is text, held as the bytes of its
    UTF-8 encoding, the way MicroPython stores it; the tag keeps the two
    apart the way the interpreter does, and the operations that work on
    characters ([len], indexing, slicing, iteration, [repr]) group the
    bytes of a text into characters first. *)
#[warnings="-register-all"]
Inductive value : Type :=
| VNone
| VBool (b : bool)
| VInt (z : Z)
| VStr (s : string)
| VBytes (s : string)
| VList (l : list value)
| VTuple (l : list value).

(** The three exception classes of the module, then the built-in ones its
    code can run into.  [CommandFailure ""] stands for [CommandFailure()]. *)
Inductive exn : Type :=
| CommandError (msg : string)
| CommandFailure (msg : string)
| UnknownWIFIModeError (msg : string)
| TypeError
| NameError
| IndexError
| ValueError
| AttributeError
| KeyError.

(** What running a piece of code gives: a value, a raised exception, or no
    answer within the loop budget of the model. *)
Inductive outcome (A : Type) : Type :=
| Ret (a : A)
| Raise (e : exn)
| OutOfFuel.
Arguments Ret {A} a.
Arguments Raise {A} e.
Arguments OutOfFuel {A}.

Definition obind {A B} (m : outcome A) (k : A -> outcome B) : outcome B :=
  match m with
  | Ret a => k a
  | Raise e => Raise e
  | OutOfFuel => OutOfFuel
  end.

Notation "x <~ m ;; k" := (obind m (fun x => k))
  (at level 61, m at next level, right associativity).

(** ** Character and string helpers *)

Definition ascii_in (lo hi c : ascii) : bool :=
  ((nat_of_ascii lo <=? nat_of_ascii c) && (nat_of_ascii c <=? nat_of_ascii hi))%nat.

(** The characters [strip] removes by default: space, \t, \n, \v, \f, \r. *)
Definition is_space (c : ascii) : bool :=
  let n := nat_of_ascii c in
  ((n =? 32) || ((9 <=? n) && (n <=? 13)))%nat.

Definition is_digit (c : ascii) : bool := ascii_in "0" "9" c.

Definition CR : ascii := ascii_of_nat 13.
Definition LF : ascii := ascii_of_nat 10.
Definition CRLF : string := String CR (String LF "").

Fixpoint lstrip (s : string) : string :=
  match s with
  | String c r => if is_space c then lstrip r else s
  | EmptyString => EmptyString
  end.

Fixpoint rstrip (s : string) : string :=
  match s with
  | String c r =>
      match rstrip r with
      | EmptyString => if is_space c then EmptyString else String c EmptyString
      | r' => String c r'
      end
  | EmptyString => EmptyString
  end.

(** [split_go sep skip cur s]: [cur] is the field being read, [skip] the
    number of characters of a separator still to pass over. *)
Fixpoint split_go (sep : string) (skip : nat) (cur s : string) : list string :=
  match s with
  | EmptyString => [cur]
  | String c r =>
      match skip with
      | S k => split_go sep k cur r
      | O =>
          if prefix sep s
          then cur :: split_go sep (Nat.pred (String.length sep)) EmptyString r
          else split_go sep O (cur ++ String c EmptyString) r
      end
  end.

(** [s.split(sep)] for a non-empty separator. *)
Definition split_on (sep s : string) : list string := split_go sep O EmptyString s.

Fixpoint join_with (sep : string) (l : list string) : string :=
  match l with
  | [] => EmptyString
  | [x] => x
  | x :: r => x ++ sep ++ join_with sep r
  end.

(** Python slice bounds: [None] is the open end, a negative index counts
    from the end, and everything is clipped to the sequence. *)
Definition clip (n : Z) (i : option Z) (dflt : Z) : Z :=
  match i with
  | None => dflt
  | Some i => if i <? 0 then Z.max 0 (n + i) else Z.min n i
  end.

Definition slice_list {A} (lo hi : option Z) (l : list A) : list A :=
  let n := Z.of_nat (List.length l) in
  let a := clip n lo 0 in
  let b := clip n hi n in
  firstn (Z.to_nat (b - a)) (skipn (Z.to_nat a) l).

Definition slice_string (lo hi : option Z) (s : string) : string :=
  string_of_list_ascii (slice_list lo hi (list_ascii_of_string s)).

(** ** Text as UTF-8 *)

(** A continuation byte, [10xxxxxx]. *)
Definition is_cont (c : ascii) : bool :=
  let n := nat_of_ascii c in
  ((128 <=? n) && (n <? 192))%nat.

Definition starts_with_cont (s : string) : bool :=
  match s with
  | String d _ => is_cont d
  | EmptyString => false
  end.

(** The characters of a text: each is a byte with the continuation bytes
    that follow it. *)
Fixpoint utf8_chars (s : string) : list string :=
  match s with
  | EmptyString => []
  | String c r =>
      match utf8_chars r with
      | ch :: chs =>
          if starts_with_cont r then String c ch :: chs
          else String c EmptyString :: ch :: chs
      | [] => [String c EmptyString]
      end
  end.

(** The lead byte without its length marker: the ones below bit 7 are
    cleared from the top until a zero is met. *)
Fixpoint clear_leading_ones (n : nat) (mask ord : Z) : Z :=
  match n with
  | O => ord
  | S k =>
      if Z.land ord mask =? 0 then ord
      else clear_leading_ones k (Z.shiftr mask 1) (Z.ldiff ord mask)
  end.

(** Six bits from each continuation byte, in a 32-bit unsigned integer. *)
Fixpoint shift_in (ord : Z) (s : string) : Z :=
  match s with
  | EmptyString => ord
  | String c r =>
      shift_in (Z.land (Z.lor (Z.shiftl ord 6) (Z.land (Z.of_nat (nat_of_ascii c)) 63))
                  4294967295) r
  end.

(** The code point of a character. *)
Definition code_point (ch : string) : Z :=
  match ch with
  | EmptyString => 0
  | String c r =>
      let n := Z.of_nat (nat_of_ascii c) in
      if n <? 128 then n
      else shift_in (clear_leading_ones 7 64 (Z.land n 127)) r
  end.

Definition text_length (s : string) : Z := Z.of_nat (List.length (utf8_chars s)).

(** Text with no character outside ASCII. *)
Fixpoint is_ascii_text (s : string) : bool :=
  match s with
  | EmptyString => true
  | String c r => (nat_of_ascii c <? 128)%nat && is_ascii_text r
  end.

(** ** Integers and text *)

Definition string_of_Z (z : Z) : string := NilZero.string_of_int (Z.to_int z).

Definition digit_value (c : ascii) : Z := Z.of_nat (nat_of_ascii c - 48).

(** What follows the first digit of a number: digits, with single
    underscores allowed between them.  [after_underscore] says that the
    character just read was an underscore, after which a digit has to
    come. *)
Fixpoint digits_value (after_underscore : bool) (acc : Z) (s : string) : option Z :=
  match s with
  | EmptyString => if after_underscore then None else Some acc
  | String c r =>
      if is_digit c then digits_value false (10 * acc + digit_value c) r
      else if Ascii.eqb c "_" && negb after_underscore then digits_value true acc r
      else None
  end.

Definition unsigned_value (s : string) : option Z :=
  match s with
  | String c r => if is_digit c then digits_value false (digit_value c) r else None
  | EmptyString => None
  end.

(** A leading sign: whether it is a minus, and what follows it. *)
Definition split_sign (s : string) : bool * string :=
  match s with
  | String c r =>
      if Ascii.eqb c "-" then (true, r)
      else if Ascii.eqb c "+" then (false, r)
      else (false, s)
  | EmptyString => (false, EmptyString)
  end.

(** [int(s)] in base ten: blanks around, an optional sign, then digits,
    which single underscores may group ([-5_5] is -55); no underscore at
    either end and no two in a row.  Integers are unbounded, and so is the
    number of digits read. *)
Definition parse_int (s : string) : option Z :=
  let (neg, digits) := split_sign (rstrip (lstrip s)) in
  option_map (fun z => if neg then - z else z) (unsigned_value digits).

(** The same grammar as a recogniser, independent of the value computed. *)
Fixpoint more_digits (after_underscore : bool) (s : string) : bool :=
  match s with
  | EmptyString => negb after_underscore
  | String c r =>
      if is_digit c then more_digits false r
      else Ascii.eqb c "_" && negb after_underscore && more_digits true r
  end.

Definition nonempty_digits (s : string) : bool :=
  match s with
  | String c r => is_digit c && more_digits false r
  | EmptyString => false
  end.

Definition is_decimal_integer (s : string) : bool :=
  nonempty_digits (snd (split_sign (rstrip (lstrip s)))).

(** Digits and nothing else. *)
Fixpoint only_digits (s : string) : bool :=
  match s with
  | EmptyString => true
  | String c r => is_digit c && only_digits r
  end.

(** ** Built-in operations on values *)

Definition as_int (v : value) : option Z :=
  match v with
  | VInt z => Some z
  | VBool b => Some (if b then 1 else 0)
  | _ => None
  end.

(** [a == b].  Equality never raises; a [str] never equals a [bytes]. *)
Fixpoint py_eq (a b : value) : bool :=
  match a, b with
  | VNone, VNone => true
  | VStr x, VStr y => String.eqb x y
  | VBytes x, VBytes y => String.eqb x y
  | VList x, VList y
  | VTuple x, VTuple y =>
      (fix all2 (x y : list value) : bool :=
         match x, y with
         | [], [] => true
         | u :: x', v :: y' => py_eq u v && all2 x' y'
         | _, _ => false
         end) x y
  | VInt x, _ => match as_int b with Some y => x =? y | None => false end
  | VBool x, _ => match as_int b with Some y => (if x then 1 else 0) =? y | None => false end
  | _, _ => false
  end.

(** [a > b]: numbers with numbers, text with text of the same kind, a
    sequence with a sequence of the same kind; anything else, a list
    against an integer included, is a [TypeError]. *)
Fixpoint py_gt (a b : value) : outcome bool :=
  match a, b with
  | VStr x, VStr y => Ret (String.ltb y x)
  | VBytes x, VBytes y => Ret (String.ltb y x)
  | VList x, VList y
  | VTuple x, VTuple y =>
      (fix lex (x y : list value) : outcome bool :=
         match x, y with
         | [], _ => Ret false
         | _ :: _, [] => Ret true
         | u :: x', v :: y' => if py_eq u v then lex x' y' else py_gt u v
         end) x y
  | VInt x, _ => match as_int b with Some y => Ret (y <? x) | None => Raise TypeError end
  | VBool x, _ =>
      match as_int b with
      | Some y => Ret (y <? (if x then 1 else 0))
      | None => Raise TypeError
      end
  | _, _ => Raise TypeError
  end.

(** [len(v)]: the characters of a text, the bytes of a byte string. *)
Definition py_len (v : value) : outcome Z :=
  match v with
  | VStr s => Ret (text_length s)
  | VBytes s => Ret (Z.of_nat (String.length s))
  | VList l | VTuple l => Ret (Z.of_nat (List.length l))
  | _ => Raise TypeError
  end.

(** [a + b].  MicroPython reads the right operand of a [bytes] addition
    through the buffer protocol, which [str] supports: [bytes + str] is
    [bytes].  The other way round, [str + bytes], is a [TypeError]. *)
Definition py_add (a b : value) : outcome value :=
  match a, b with
  | VStr x, VStr y => Ret (VStr (x ++ y))
  | VBytes x, VBytes y => Ret (VBytes (x ++ y))
  | VBytes x, VStr y => Ret (VBytes (x ++ y))
  | VList x, VList y => Ret (VList (x ++ y)%list)
  | VTuple x, VTuple y => Ret (VTuple (x ++ y)%list)
  | (VInt _ | VBool _), (VInt _ | VBool _) =>
      match as_int a, as_int b with
      | Some x, Some y => Ret (VInt (x + y))
      | _, _ => Raise TypeError
      end
  | _, _ => Raise TypeError
  end.

(** [v.rstrip()]; MicroPython strips the ASCII blanks from text as from
    bytes. *)
Definition py_rstrip (v : value) : outcome value :=
  match v with
  | VStr s => Ret (VStr (rstrip s))
  | VBytes s => Ret (VBytes (rstrip s))
  | _ => Raise AttributeError
  end.

(** [v.split(sep)] *)
Definition py_split (v sep : value) : outcome (list value) :=
  match v, sep with
  | VStr _, VStr EmptyString | VBytes _, VBytes EmptyString => Raise ValueError
  | VStr s, VStr p => Ret (map VStr (split_on p s))
  | VBytes s, VBytes p => Ret (map VBytes (split_on p s))
  | (VStr _ | VBytes _), _ => Raise TypeError
  | _, _ => Raise AttributeError
  end.

(** [sep.join(items)]: every item has to be of the separator's type. *)
Fixpoint bytes_items (l : list value) : outcome (list string) :=
  match l with
  | [] => Ret []
  | VBytes s :: r => r' <~ bytes_items r ;; Ret (s :: r')
  | _ :: _ => Raise TypeError
  end.

Fixpoint str_items (l : list value) : outcome (list string) :=
  match l with
  | [] => Ret []
  | VStr s :: r => r' <~ str_items r ;; Ret (s :: r')
  | _ :: _ => Raise TypeError
  end.

Definition py_join (sep : value) (items : list value) : outcome value :=
  match sep with
  | VBytes p => l <~ bytes_items items ;; Ret (VBytes (join_with p l))
  | VStr p => l <~ str_items items ;; Ret (VStr (join_with p l))
  | _ => Raise AttributeError
  end.

(** [l[i]] on a Python list: a negative index counts from the end and an
    index outside the list is an [IndexError]. *)
Definition list_item {A} (l : list A) (i : Z) : outcome A :=
  let n := Z.of_nat (List.length l) in
  let j := if i <? 0 then n + i else i in
  if (j <? 0) || (n <=? j) then Raise IndexError
  else match nth_error l (Z.to_nat j) with
       | Some x => Ret x
       | None => Raise IndexError
       end.

(** [v[i]]: an element, a character of a text, a byte as an integer. *)
Definition py_getitem (v : value) (i : Z) : outcome value :=
  match v with
  | VList l | VTuple l => list_item l i
  | VStr s => ch <~ list_item (utf8_chars s) i ;; Ret (VStr ch)
  | VBytes s => c <~ list_item (list_ascii_of_string s) i ;; Ret (VInt (Z.of_nat (nat_of_ascii c)))
  | _ => Raise TypeError
  end.

(** [v[lo:hi]]; a slice never raises on a sequence. *)
Definition py_slice (v : value) (lo hi : option Z) : outcome value :=
  match v with
  | VList l => Ret (VList (slice_list lo hi l))
  | VTuple l => Ret (VTuple (slice_list lo hi l))
  | VStr s => Ret (VStr (concat EmptyString (slice_list lo hi (utf8_chars s))))
  | VBytes s => Ret (VBytes (slice_string lo hi s))
  | _ => Raise TypeError
  end.

(** [int(v)]; text and byte strings are read alike, by [parse_int]. *)
Definition py_int (v : value) : outcome Z :=
  match v with
  | VInt z => Ret z
  | VBool b => Ret (if b then 1 else 0)
  | VStr s | VBytes s =>
      match parse_int s with
      | Some z => Ret z
      | None => Raise ValueError
      end
  | _ => Raise TypeError
  end.

(** What a [for] loop iterates over: the elements of a list or tuple, the
    characters of a text, the bytes of a byte string as integers. *)
Definition py_iter (v : value) : outcome (list value) :=
  match v with
  | VList l | VTuple l => Ret l
  | VStr s => Ret (map VStr (utf8_chars s))
  | VBytes s => Ret (map (fun c => VInt (Z.of_nat (nat_of_ascii c))) (list_ascii_of_string s))
  | _ => Raise TypeError
  end.

(** [a += b]: a list is extended by what [b] iterates over, every other
    type falls back on [a + b]. *)
Definition py_iadd (a b : value) : outcome value :=
  match a with
  | VList x => items <~ py_iter b ;; Ret (VList (x ++ items)%list)
  | _ => py_add a b
  end.

(** [x in seq] for a tuple, a range or the keys of a table. *)
Definition py_in (x : value) (seq : list value) : bool := existsb (py_eq x) seq.

(** Whether a value can be hashed, as a dictionary key has to be: a list
    cannot, nor can a tuple with a list in it. *)
Fixpoint hashable (v : value) : bool :=
  match v with
  | VList _ => false
  | VTuple l => forallb hashable l
  | _ => true
  end.

(** [x in d.keys()]: the key is hashed, then looked up. *)
Definition py_in_keys (x : value) (ks : list value) : outcome bool :=
  if hashable x then Ret (py_in x ks) else Raise TypeError.

(** [range(a, b)] as the integers it yields. *)
Definition py_range (a b : Z) : list value :=
  map (fun k => VInt (a + Z.of_nat k)) (seq 0 (Z.to_nat (b - a))).

Definition is_str (v : value) : bool := match v with VStr _ => true | _ => false end.
Definition is_int (v : value) : bool := match v with VInt _ => true | _ => false end.

(** *** [repr] and [str] *)

Definition hex_digit (n : nat) : ascii :=
  if (n <? 10)%nat then ascii_of_nat (48 + n) else ascii_of_nat (87 + n).

(** [n] in [width] hexadecimal digits. *)
Fixpoint hex_fixed (width : nat) (n : Z) : string :=
  match width with
  | O => EmptyString
  | S k =>
      String (hex_digit (Z.to_nat (Z.shiftr n (4 * Z.of_nat k) mod 16))) (hex_fixed k n)
  end.

(** A byte of a byte string inside quotes. *)
Definition escape_char (quote c : ascii) : string :=
  let n := nat_of_ascii c in
  if Ascii.eqb c quote then String "\" (String quote EmptyString)
  else if Ascii.eqb c "\" then "\\"
  else if (n =? 10)%nat then "\n"
  else if (n =? 13)%nat then "\r"
  else if (n =? 9)%nat then "\t"
  else if ((n <? 32) || (126 <? n))%nat
       then String "\" (String "x" (String (hex_digit (n / 16)) (String (hex_digit (n mod 16)) EmptyString)))
  else String c EmptyString.

(** A character of a text inside quotes.  MicroPython prints the printable
    ASCII characters as they are and escapes every other one by its code
    point: [\xhh] below 0x100, [\uhhhh] below 0x10000, [\Uhhhhhhhh] from
    there on.  (CPython escapes the same way but leaves the characters its
    Unicode tables call printable unescaped; on ASCII text the two agree.) *)
Definition escape_text_char (quote : ascii) (ch : string) : string :=
  let n := code_point ch in
  if n =? Z.of_nat (nat_of_ascii quote) then String "\" (String quote EmptyString)
  else if n =? 92 then "\\"
  else if (32 <=? n) && (n <=? 126) then String (ascii_of_nat (Z.to_nat n)) EmptyString
  else if n =? 10 then "\n"
  else if n =? 13 then "\r"
  else if n =? 9 then "\t"
  else if n <? 256 then "\x" ++ hex_fixed 2 n
  else if n <? 65536 then "\u" ++ hex_fixed 4 n
  else "\U" ++ hex_fixed 8 n.

Fixpoint has_char (c : ascii) (s : string) : bool :=
  match s with
  | EmptyString => false
  | String d r => Ascii.eqb c d || has_char c r
  end.

Definition DQUOTE : ascii := ascii_of_nat 34.
Definition SQUOTE : ascii := "'"%char.

(** Single quotes, unless the content has one and no double quote. *)
Definition quote_for (s : string) : ascii :=
  if has_char SQUOTE s && negb (has_char DQUOTE s) then DQUOTE else SQUOTE.

(** The content of a byte string in quotes. *)
Definition quoted (s : string) : string :=
  let q := quote_for s in
  String q (concat EmptyString (map (escape_char q) (list_ascii_of_string s))
            ++ String q EmptyString).

(** A text in quotes. *)
Definition quoted_text (s : string) : string :=
  let q := quote_for s in
  String q (concat EmptyString (map (escape_text_char q) (utf8_chars s))
            ++ String q EmptyString).

Fixpoint py_repr (v : value) : string :=
  match v with
  | VNone => "None"
  | VBool b => if b then "True" else "False"
  | VInt z => string_of_Z z
  | VStr s => quoted_text s
  | VBytes s => "b" ++ quoted s
  | VList l => "[" ++ join_with ", " (map py_repr l) ++ "]"
  | VTuple l =>
      match l with
      | [x] => "(" ++ py_repr x ++ ",)"
      | _ => "(" ++ join_with ", " (map py_repr l) ++ ")"
      end
  end.

(** [str(v)]: a text is itself, everything else as [repr] gives it. *)
Definition py_str (v : value) : string :=
  match v with
  | VStr s => s
  | _ => py_repr v
  end.

(** [(before + "%s" + after) % v].  A tuple on the right is the tuple of the
    arguments, of which the format takes exactly one; any other value is
    the one argument. *)
Definition py_format_s (before after : string) (v : value) : outcome string :=
  match v with
  | VTuple [x] => Ret (before ++ py_str x ++ after)
  | VTuple _ => Raise TypeError
  | _ => Ret (before ++ py_str v ++ after)
  end.

(** Values that are neither a list nor a tuple, and values whose text is
    ASCII all the way down. *)
Definition scalar (v : value) : bool :=
  match v with
  | VList _ | VTuple _ => false
  | _ => true
  end.

Fixpoint ascii_value (v : value) : bool :=
  match v with
  | VStr s => is_ascii_text s
  | VList l | VTuple l => forallb ascii_value l
  | _ => true
  end.

(** ** The transport and the effect monad *)

(** The serial port and the clock of the board, as the module uses them:
    [uart.write], [uart.any] (read as a truth value), [uart.readline],
    [delay] (milliseconds) and [micros]. *)
Class Transport (T : Type) : Type := {
  uart_write : value -> T -> T;
  uart_any : T -> bool * T;
  uart_readline : T -> value * T;
  delay : Z -> T -> T;
  micros : T -> Z * T
}.

Definition eff (T A : Type) : Type := T -> outcome A * T.

Definition eret {T A} (a : A) : eff T A := fun t => (Ret a, t).

Definition ebind {T A B} (m : eff T A) (k : A -> eff T B) : eff T B :=
  fun t =>
    match m t with
    | (Ret a, t') => k a t'
    | (Raise e, t') => (Raise e, t')
    | (OutOfFuel, t') => (OutOfFuel, t')
    end.

Definition raise {T A} (e : exn) : eff T A := fun t => (Raise e, t).
Definition out_of_fuel {T A} : eff T A := fun t => (OutOfFuel, t).
Definition lift {T A} (o : outcome A) : eff T A := fun t => (o, t).

Notation "x <- m ;; k" := (ebind m (fun x => k))
  (at level 61, m at next level, right associativity).
Notation "m ;; k" := (ebind m (fun _ => k))
  (at level 61, k at level 61, only parsing).

(** ** Command tables *)

Definition CMDS_GENERIC : list (string * string) :=
  [ ("TEST_AT", "AT"); ("RESET", "AT+RST"); ("VERSION_INFO", "AT+GMR");
    ("DEEP_SLEEP", "AT+GSLP"); ("ECHO", "ATE"); ("FACTORY_RESET", "AT+RESTORE");
    ("UART_CONFIG", "AT+UART") ].

Definition CMDS_WIFI : list (string * string) :=
  [ ("MODE", "AT+CWMODE"); ("CONNECT", "AT+CWJAP"); ("LIST_APS", "AT+CWLAP");
    ("DISCONNECT", "AT+CWQAP"); ("AP_SET_PARAMS", "AT+CWSAP");
    ("AP_LIST_CLIENTS", "AT+CWLIF"); ("AP_DHCP", "AT+CWDHCP");
    ("AUTO_CONNECT", "AT+CWAUTOCONN"); ("SET_STATION_MAC", "AT+CIPSTAMAC");
    ("SET_AP_MAC", "AT+CIPAPMAC"); ("SET_STATION_IP", "AT+CIPSTA");
    ("SET_AP_IP", "AT+CIPAP") ].

Definition CMDS_IP : list (string * string) :=
  [ ("STATUS", "AT+CIPSTATUS"); ("START", "AT+CIPSTART"); ("SEND", "AT+CIPSEND");
    ("CLOSE", "AT+CIPCLOSE"); ("GET_LOCAL_IP", "AT+CIFSR");
    ("SET_MUX_MODE", "AT+CIPMUX"); ("CONFIG_SERVER", "AT+CIPSERVER");
    ("SET_TX_MODE", "AT+CIPMODE"); ("SET_TCP_SERVER_TIMEOUT", "AT+CIPSTO");
    ("UPGRADE", "AT+CIUPDATE"); ("PING", "AT+PING") ].

Definition WIFI_MODES : list (Z * string) :=
  [ (1, "Station"); (2, "Access Point"); (3, "Access Point + Station") ].

Definition WIFI_ENCRYPTION_PROTOCOLS : list (Z * string) :=
  [ (0, "OPEN"); (1, "WEP"); (2, "WPA_PSK"); (3, "WPA2_PSK"); (4, "WPA_WPA2_PSK") ].

(** [table[key]] on a table of byte strings *)
Fixpoint lookup (table : list (string * string)) (key : string) : outcome value :=
  match table with
  | [] => Raise KeyError
  | (k, v) :: r => if String.eqb k key then Ret (VBytes v) else lookup r key
  end.

(** [table.keys()] *)
Definition keys (table : list (Z * string)) : list value :=
  map (fun kv => VInt (fst kv)) table.

(** ** The command engine *)

Section Engine.

Context {T : Type} `{Transport T}.

Definition do_write (v : value) : eff T unit := fun t => (Ret tt, uart_write v t).
Definition do_any : eff T bool := fun t => let (b, t') := uart_any t in (Ret b, t').
Definition do_readline : eff T value := fun t => let (v, t') := uart_readline t in (Ret v, t').
Definition do_delay (ms : Z) : eff T unit := fun t => (Ret tt, delay ms t).
Definition do_micros : eff T Z := fun t => let (us, t') := micros t in (Ret us, t').

(** A diagnostic [print("%8i - ..." % (elapsed_micros(start), ...))].  The
    local [start] is bound only when [debug] is set; reading it unbound is
    a [NameError]. *)
Definition trace (start : option Z) : eff T unit :=
  match start with
  | Some _ => _ <- do_micros ;; eret tt
  | None => raise NameError
  end.

Definition when (c : bool) (m : eff T unit) : eff T unit :=
  if c then m else eret tt.

(** [output[-1].rstrip()] *)
Definition last_stripped (output : list value) : eff T value :=
  last <- lift (list_item output (-1)) ;;
  lift (py_rstrip last).

(** The body the first two receive loops share (lines 92-98, 105-111):
    append the line read, and note an [OK]. *)
Definition receive (debug : bool) (start : option Z)
    (output : list value) (okay : bool) : eff T (list value * bool) :=
  line <- do_readline ;;
  let output := (output ++ [line])%list in
  when debug (trace start) ;;
  s <- last_stripped output ;;
  if py_eq s (VBytes "OK")
  then when debug (trace start) ;; eret (output, true)
  else eret (output, okay).

(** Lines 90-100: [cmd_timeout] polls; the 10 ms pause is taken only after
    a line was read. *)
Fixpoint phase1 (cmd_timeout : nat) (debug : bool) (start : option Z)
    (output : list value) (okay : bool) : eff T (list value * bool) :=
  match cmd_timeout with
  | O => eret (output, okay)
  | S n =>
      a <- do_any ;;
      st <- (if a
             then st <- receive debug start output okay ;;
                  do_delay 10 ;;
                  eret st
             else eret (output, okay)) ;;
      phase1 n debug start (fst st) (snd st)
  end.

(** Lines 104-111: read whatever is still there.  The loop has no counter
    of its own; [fuel] bounds it in the model. *)
Fixpoint drain (fuel : nat) (debug : bool) (start : option Z)
    (output : list value) (okay : bool) : eff T (list value * bool) :=
  match fuel with
  | O => out_of_fuel
  | S f =>
      a <- do_any ;;
      if a
      then st <- receive debug start output okay ;;
           drain f debug start (fst st) (snd st)
      else eret (output, okay)
  end.

(** Lines 127-138.  [cmd_timeout] is [300] or the quotient [timeout / 10],
    which is not an integer in general: it is kept as a rational. *)
Fixpoint phase2 (fuel : nat) (cmd_timeout : Q) (debug : bool) (start : option Z)
    (output : list value) (okay : bool) : eff T (list value * bool * Q) :=
  if Qle_bool cmd_timeout 0 then eret (output, okay, cmd_timeout)
  else
    match fuel with
    | O => out_of_fuel
    | S f =>
        do_delay 10 ;;
        a <- do_any ;;
        if a
        then
          line <- do_readline ;;
          let output := (output ++ [line])%list in
          when debug (trace start) ;;
          s <- last_stripped output ;;
          if py_eq s (VBytes "OK") then eret (output, true, cmd_timeout)
          else
            s <- last_stripped output ;;
            if py_eq s (VBytes "FAIL") then raise (CommandFailure "")
            else phase2 f (cmd_timeout - 1)%Q debug start output okay
        else phase2 f (cmd_timeout - 1)%Q debug start output okay
    end.

(** Lines 114-140, the block guarded by the test of line 113. *)
Definition handle_output (timeout : Z) (debug : bool) (fuel : nat) (start : option Z)
    (output : list value) (okay : bool) (cmd_timeout : Q) : eff T (list value) :=
  s <- last_stripped output ;;
  st <- (if py_eq s (VBytes "ERROR") then raise (CommandError "Command error!")
         else
           s <- last_stripped output ;;
           if py_eq s (VBytes "OK") then eret (output, true, cmd_timeout)
           else if negb okay
           then
             cmd_timeout <- (if timeout =? 0 then eret (300 : Q)
                             else when debug (trace start) ;;
                                  eret (inject_Z timeout / 10)%Q) ;;
             phase2 fuel cmd_timeout debug start output okay
           else eret (output, okay, cmd_timeout)) ;;
  let '(output, okay, cmd_timeout) := st in
  when (negb okay && Qeq_bool cmd_timeout 0 && debug) (trace start) ;;
  eret output.

(** [sendcommand(cmd, timeout=0, debug=False)] *)
Definition sendcommand (cmd : value) (timeout : Z) (debug : bool) (fuel : nat)
    : eff T (list value) :=
  start <- (if debug then us <- do_micros ;; eret (Some us) else eret None) ;;
  let output : list value := [] in
  let okay := false in
  if py_eq cmd (VStr "") || py_eq cmd (VBytes "")
  then
    msg <- lift (py_add (VStr "Unknown command '") cmd) ;;
    msg <- lift (py_add msg (VStr "'!")) ;;
    raise (CommandError (py_str msg))
  else
    cmd <- lift (py_iadd cmd (VStr CRLF)) ;;
    when debug (trace start) ;;
    do_write cmd ;;
    st <- phase1 100 debug start output okay ;;
    let '(output, okay) := st in
    (* the loop is left with cmd_timeout == 0 *)
    let cmd_timeout := 0 in
    when ((cmd_timeout =? 0) && (Z.of_nat (List.length output) =? 0)) (trace start) ;;
    st <- drain fuel debug start output okay ;;
    let '(output, okay) := st in
    (* line 113: [if len(output > 0):] *)
    c <- lift (py_gt (VList output) (VInt 0)) ;;
    n <- lift (py_len (VBool c)) ;;
    if negb (n =? 0)
    then handle_output timeout debug fuel start output okay (inject_Z cmd_timeout)
    else eret output.

End Engine.

(** ** Argument joining and access point lines *)

(** What the loop of [joinargs] appends for one argument (lines 152-155). *)
Definition joinargs_item (arg : value) : outcome value :=
  if is_str arg
  then q <~ py_add (VBytes (String DQUOTE EmptyString)) arg ;;
       py_add q (VBytes (String DQUOTE EmptyString))
  else py_add (VBytes EmptyString) (VStr (py_str arg)).

(** The loop of [joinargs] (line 151). *)
Fixpoint joinargs_loop (args str_args : list value) : outcome (list value) :=
  match args with
  | [] => Ret str_args
  | arg :: rest =>
      s <~ joinargs_item arg ;;
      joinargs_loop rest (str_args ++ [s])%list
  end.

(** [joinargs( *args )]; [args] is the tuple of the positional arguments. *)
Definition joinargs (args : list value) : outcome value :=
  args <~ (if (Z.of_nat (List.length args) =? 1)
           then py_getitem (VTuple args) 0
           else Ret (VTuple args)) ;;
  items <~ py_iter args ;;
  str_args <~ joinargs_loop items [] ;;
  py_join (VBytes ",") str_args.

(** The dictionary [parseaccesspointstr] builds has a fixed set of keys. *)
Record AccessPoint : Type := {
  encryption_protocol : Z;
  ssid : value;
  rssi : Z;
  mac : value;
  channel : Z
}.

(** [parseaccesspointstr(ap_str)]; [None] is Python's [None].  The tuple
    assignment of line 164 is the five-element pattern. *)
Definition parseaccesspointstr (ap_str : value) : outcome (option AccessPoint) :=
  ap_params <~ py_split ap_str (VBytes ",") ;;
  if Z.of_nat (List.length ap_params) =? 5
  then
    match ap_params with
    | [enc_mode; ssid; rssi; mac; channel] =>
        e <~ py_int enc_mode ;;
        r <~ py_int rssi ;;
        c <~ py_int channel ;;
        Ret (Some {| encryption_protocol := e; ssid := ssid; rssi := r;
                     mac := mac; channel := c |})
    | _ => Raise ValueError
    end
  else Ret None.

(** The one-argument functions the module binds at top level, by name. *)
Definition global_function (name : string)
    : option (value -> outcome (option AccessPoint)) :=
  if String.eqb name "parseaccesspointstr" then Some parseaccesspointstr else None.

(** ** The three entry points and the facades *)

(** [...[1].rstrip()], what [querycommand] extracts from the lines. *)
Definition second_line (output : list value) : outcome value :=
  line <~ list_item output 1 ;;
  py_rstrip line.

(** [...[1:-2]], what [setcommand] and [executecommand] extract. *)
Definition body_lines (output : list value) : outcome (list value) :=
  Ret (slice_list (Some 1) (Some (-2)) output).

Section Facades.

Context {T : Type} `{Transport T}.

Definition querycommand (cmd : value) (timeout : Z) (debug : bool) (fuel : nat)
    : eff T value :=
  cmd <- lift (py_add cmd (VBytes "?")) ;;
  output <- sendcommand cmd timeout debug fuel ;;
  lift (second_line output).

(** [setcommand(cmd, *args, timeout=0, debug=False)]: the tuple [args] is
    handed to [joinargs] as its single argument. *)
Definition setcommand (cmd : value) (args : list value) (timeout : Z) (debug : bool)
    (fuel : nat) : eff T (list value) :=
  args_str <- lift (joinargs [VTuple args]) ;;
  cmd <- lift (py_add cmd (VBytes "=")) ;;
  cmd <- lift (py_add cmd args_str) ;;
  output <- sendcommand cmd timeout debug fuel ;;
  lift (body_lines output).

Definition executecommand (cmd : value) (timeout : Z) (debug : bool) (fuel : nat)
    : eff T (list value) :=
  output <- sendcommand cmd timeout debug fuel ;;
  lift (body_lines output).

(** First loop of [reset]: [while not uart.any() and timeout > 0]. *)
Fixpoint wait_boot (timeout : nat) : eff T nat :=
  a <- do_any ;;
  if a then eret timeout
  else match timeout with
       | O => eret O
       | S n => do_delay 10 ;; wait_boot n
       end.

(** Second loop of [reset]: read and drop the boot messages. *)
Fixpoint read_boot (timeout : nat) (debug : bool) (start : option Z) : eff T unit :=
  match timeout with
  | O => eret tt
  | S n =>
      a <- do_any ;;
      (if a then _ <- do_readline ;; when debug (trace start) else eret tt) ;;
      do_delay 20 ;;
      read_boot n debug start
  end.

Definition reset (debug : bool) (fuel : nat) : eff T unit :=
  start <- (if debug then us <- do_micros ;; eret (Some us) else eret None) ;;
  cmd <- lift (lookup CMDS_GENERIC "RESET") ;;
  _ <- executecommand cmd 0 true fuel ;;
  timeout <- wait_boot 300 ;;
  when (debug && Nat.eqb timeout 0) (trace start) ;;
  read_boot 300 debug start ;;
  when debug (trace start).

(** [test()] *)
Definition test (fuel : nat) : eff T unit :=
  cmd <- lift (lookup CMDS_GENERIC "TEST_AT") ;;
  _ <- executecommand cmd 0 true fuel ;;
  eret tt.

End Facades.

(** The dictionary [getaccesspointconfig] returns; the fields are its keys
    [ssid], [password], [channel] and [encryption_protocol]. *)
Record AccessPointConfig : Type := {
  ap_ssid : value;
  ap_password : value;
  ap_channel : Z;
  ap_encryption_protocol : Z
}.

Module WIFI.
Section Wifi.

Context {T : Type} `{Transport T}.

(** What [getmode] does with the line [querycommand] hands back.  [mode]
    is an integer here: it can be hashed, and [%s] formats it as [str]
    does. *)
Definition mode_of_answer (answer : value) : outcome Z :=
  parts <~ py_split answer (VBytes ":") ;;
  field <~ list_item parts 1 ;;
  mode <~ py_int field ;;
  if py_in (VInt mode) (keys WIFI_MODES)
  then Ret mode
  else Raise (UnknownWIFIModeError ("Mode '" ++ py_str (VInt mode) ++ "' not known!")).

Definition getmode (fuel : nat) : eff T Z :=
  cmd <- lift (lookup CMDS_WIFI "MODE") ;;
  answer <- querycommand cmd 0 false fuel ;;
  lift (mode_of_answer answer).

(** [setmode(mode)]; [mode] is whatever the caller passes. *)
Definition setmode (mode : value) (fuel : nat) : eff T unit :=
  known <- lift (py_in_keys mode (keys WIFI_MODES)) ;;
  if negb known
  then
    msg <- lift (py_format_s "Mode '" "' not known!" mode) ;;
    raise (UnknownWIFIModeError msg)
  else
    cmd <- lift (lookup CMDS_WIFI "MODE") ;;
    _ <- setcommand cmd [mode] 0 false fuel ;;
    eret tt.

(** The body of the loop of [listallaccesspoints] (lines 278-283). *)
Definition scan_line (ap : value) (aps : list AccessPoint) : outcome (list AccessPoint) :=
  line <~ py_rstrip ap ;;
  cmd <~ lookup CMDS_WIFI "LIST_APS" ;;
  name <~ py_slice cmd (Some 3) None ;;
  sep <~ py_add (VBytes "+") name ;;
  sep <~ py_add sep (VBytes ":") ;;
  parts <~ py_split line sep ;;
  field <~ list_item parts 1 ;;
  ap_str <~ py_slice field (Some 1) (Some (-1)) ;;
  (* line 281 calls [paresaccesspointstr] *)
  ap <~ match global_function "paresaccesspointstr" with
        | Some f => f ap_str
        | None => Raise NameError
        end ;;
  match ap with
  | Some ap => Ret (aps ++ [ap])%list
  | None => Ret aps
  end.

Fixpoint scan_lines (answer : list value) (aps : list AccessPoint)
    : outcome (list AccessPoint) :=
  match answer with
  | [] => Ret aps
  | ap :: rest => aps <~ scan_line ap aps ;; scan_lines rest aps
  end.

Definition listallaccesspoints (fuel : nat) : eff T (list AccessPoint) :=
  cmd <- lift (lookup CMDS_WIFI "LIST_APS") ;;
  answer <- executecommand cmd 0 false fuel ;;
  lift (scan_lines answer []).

(** The parameter checks of [setaccesspointconfig] (lines 304-315), with
    [mode] the value [WIFI.getmode()] returned. *)
Definition check_config (mode : Z) (ssid password channel encrypt_proto : value)
    : outcome unit :=
  if negb (py_in (VInt mode) [VInt 2; VInt 3])
  then Raise (CommandFailure "WIFI not set to an access point mode!")
  else if negb (is_str ssid)
  then Raise (CommandFailure "SSID must be of type str!")
  else if negb (is_str password)
  then Raise (CommandFailure "Password must be of type str!")
  else
    n <~ py_len password ;;
    if (64 <? n) || (n <? 8)
    then Raise (CommandFailure "Wrong password length (8..64)!")
    else if negb (py_in channel (py_range 1 15)) && negb (is_int channel)
    then Raise (CommandFailure "Invalid WIFI channel!")
    else if negb (py_in encrypt_proto [VInt 0; VInt 2; VInt 3; VInt 4])
            && negb (is_int encrypt_proto)
    then Raise (CommandFailure "Invalid encryption protocol!")
    else Ret tt.

Definition setaccesspointconfig (ssid password channel encrypt_proto : value)
    (fuel : nat) : eff T unit :=
  mode <- getmode fuel ;;
  lift (check_config mode ssid password channel encrypt_proto) ;;
  cmd <- lift (lookup CMDS_WIFI "AP_SET_PARAMS") ;;
  _ <- setcommand cmd [ssid; password; channel; encrypt_proto] 0 true fuel ;;
  reset true fuel.

(** What [getaccesspoint] makes of the answer (lines 254-258); [VNone] is
    the result for a module that has joined no access point. *)
Definition accesspoint_of_answer (answer : value) : outcome value :=
  if py_eq answer (VBytes "No AP") then Ret VNone
  else
    cmd <~ lookup CMDS_WIFI "CONNECT" ;;
    name <~ py_slice cmd (Some 3) None ;;
    sep <~ py_add (VBytes "+") name ;;
    sep <~ py_add sep (VBytes ":") ;;
    parts <~ py_split answer sep ;;
    field <~ list_item parts 1 ;;
    py_slice field (Some 1) (Some (-1)).

Definition getaccesspoint (fuel : nat) : eff T value :=
  cmd <- lift (lookup CMDS_WIFI "CONNECT") ;;
  answer <- querycommand cmd 0 false fuel ;;
  lift (accesspoint_of_answer answer).

Definition connect (ssid psk : value) (fuel : nat) : eff T unit :=
  cmd <- lift (lookup CMDS_WIFI "CONNECT") ;;
  _ <- setcommand cmd [ssid; psk] 20000 true fuel ;;
  eret tt.

Definition disconnect (fuel : nat) : eff T unit :=
  cmd <- lift (lookup CMDS_WIFI "DISCONNECT") ;;
  _ <- executecommand cmd 0 false fuel ;;
  eret tt.

(** [listaccesspoints( *args )] hands its tuple on as one argument. *)
Definition listaccesspoints (args : list value) (fuel : nat) : eff T (list value) :=
  cmd <- lift (lookup CMDS_WIFI "LIST_APS") ;;
  setcommand cmd [VTuple args] 0 true fuel.

(** What [getaccesspointconfig] makes of the answer (lines 326-332); the
    tuple assignment is the four-element pattern. *)
Definition config_of_answer (answer : value) : outcome AccessPointConfig :=
  parts <~ py_split answer (VBytes ":") ;;
  field <~ list_item parts 1 ;;
  params <~ py_split field (VBytes ",") ;;
  match params with
  | [ssid; password; channel; encryption_protocol] =>
      c <~ py_int channel ;;
      e <~ py_int encryption_protocol ;;
      Ret {| ap_ssid := ssid; ap_password := password;
             ap_channel := c; ap_encryption_protocol := e |}
  | _ => Raise ValueError
  end.

Definition getaccesspointconfig (fuel : nat) : eff T AccessPointConfig :=
  mode <- getmode fuel ;;
  if negb (py_in (VInt mode) [VInt 2; VInt 3])
  then raise (CommandFailure "WIFI not set to an access point mode!")
  else
    cmd <- lift (lookup CMDS_WIFI "AP_SET_PARAMS") ;;
    answer <- querycommand cmd 0 true fuel ;;
    lift (config_of_answer answer).

End Wifi.
End WIFI.

Module IP.
Section Ip.

Context {T : Type} `{Transport T}.

Definition getconnectionstatus (fuel : nat) : eff T (list value) :=
  cmd <- lift (lookup CMDS_IP "STATUS") ;;
  executecommand cmd 0 false fuel.

Definition startconnection (protocol dest_ip dest_port : value) (fuel : nat)
    : eff T unit :=
  cmd <- lift (lookup CMDS_IP "START") ;;
  _ <- setcommand cmd [protocol; dest_ip; dest_port] 0 true fuel ;;
  eret tt.

(** [send(data)]: the length goes out in a set command, then the data. *)
Definition send (data : value) (fuel : nat) : eff T unit :=
  cmd <- lift (lookup CMDS_IP "SEND") ;;
  n <- lift (py_len data) ;;
  _ <- setcommand cmd [VInt n] 0 true fuel ;;
  _ <- lift (py_add (VBytes ">") data) ;;
  do_write data.

Definition ping (destination : value) (fuel : nat) : eff T (list value) :=
  cmd <- lift (lookup CMDS_IP "PING") ;;
  setcommand cmd [destination] 0 false fuel.

End Ip.
End IP.

(** ** A scripted transport

    The module at the other end of the line is a script: the lines it
    sends, each with the time (ms) from which it can be read.  The clock
    moves with [delay] only; [tx] records what was written. *)

Record Sim : Type := {
  now : Z;
  rx : list (Z * value);
  tx : list value
}.

Definition sim_any (s : Sim) : bool :=
  match rx s with
  | (at_ms, _) :: _ => at_ms <=? now s
  | [] => false
  end.

Definition sim_readline (s : Sim) : value * Sim :=
  match rx s with
  | (at_ms, line) :: rest =>
      if at_ms <=? now s
      then (line, {| now := now s; rx := rest; tx := tx s |})
      else (VNone, s)
  | [] => (VNone, s)
  end.

#[export] Instance sim_transport : Transport Sim := {|
  uart_write := fun v s => {| now := now s; rx := rx s; tx := (tx s ++ [v])%list |};
  uart_any := fun s => (sim_any s, s);
  uart_readline := sim_readline;
  delay := fun ms s => {| now := now s + ms; rx := rx s; tx := tx s |};
  micros := fun s => (1000 * now s, s)
|}.

(** A module that sends the given lines, nothing written yet. *)
Definition script (lines : list (Z * string)) : Sim :=
  {| now := 0; rx := map (fun l => (fst l, VBytes (snd l))) lines; tx := [] |}.

Definition line (s : string) : string := s ++ CRLF.
Definition dq (s : string) : string := String DQUOTE (s ++ String DQUOTE EmptyString).


(** ** Conversations and values used in the statements *)

(** An access point as the scan reports it, without the parentheses. *)
Definition ap_line : string :=
  "0," ++ dq "ssid" ++ ",-55," ++ dq "aa:bb:cc:dd:ee:ff" ++ ",6".

(** The answer of a scan with one access point in it. *)
Definition scan_reply : list (Z * string) :=
  [ (0, line "AT+CWLAP");
    (0, line ("+CWLAP:(" ++ ap_line ++ ")"));
    (0, line "");
    (0, line "OK") ].

(** The answer to [AT+CWMODE?] from a module in the given mode. *)
Definition mode_reply (mode : string) : list (Z * string) :=
  [ (0, line "AT+CWMODE?");
    (0, line ("+CWMODE:" ++ mode));
    (0, line "");
    (0, line "OK") ].

Definition password8 : string := "12345678".
Definition password64 : string :=
  password8 ++ password8 ++ password8 ++ password8
  ++ password8 ++ password8 ++ password8 ++ password8.

(** How [joinargs] renders one argument. *)
Definition rendered (arg : value) : string :=
  match arg with
  | VStr s => dq s
  | _ => py_str arg
  end.

(** An argument whose rendering does not turn on how [repr] escapes text
    outside ASCII: a text, which goes between double quotes as it is, or
    a value whose text is ASCII all the way down. *)
Definition plain_arg (arg : value) : bool := is_str arg || ascii_value arg.

(** The text of the one character U+00E9 (e with acute accent): the bytes
    C3 A9. *)
Definition e_acute : string :=
  String (ascii_of_nat 195) (String (ascii_of_nat 169) EmptyString).

(** ** Vocabulary for outcomes *)

(** The interpreter's own exceptions, as opposed to the module's three. *)
Definition builtin (e : exn) : bool :=
  match e with
  | CommandError _ | CommandFailure _ | UnknownWIFIModeError _ => false
  | _ => true
  end.

(** A built-in operation: it answers, or fails in the interpreter. *)
Definition pure_out {A} (o : outcome A) : Prop :=
  match o with
  | Ret _ => True
  | Raise e => builtin e = true
  | OutOfFuel => False
  end.

(** Returns, or fails in the interpreter. *)
Definition quiet_out {A} (o : outcome A) : Prop :=
  match o with
  | Raise e => builtin e = true
  | _ => True
  end.

(** Does not return, and fails in the interpreter if it raises. *)
Definition stuck_out {A} (o : outcome A) : Prop :=
  match o with
  | Ret _ => False
  | Raise e => builtin e = true
  | OutOfFuel => True
  end.

(** What [sendcommand] can end in: the interpreter's exceptions, and
    [CommandError] for the empty [str] command only. *)
Definition engine_out {A} (cmd : value) (o : outcome A) : Prop :=
  match o with
  | Ret _ => False
  | Raise (CommandError msg) => cmd = VStr "" /\ msg = "Unknown command ''!"
  | Raise e => builtin e = true
  | OutOfFuel => True
  end.

Definition post {T A} (Q : outcome A -> Prop) (m : eff T A) : Prop :=
  forall t, Q (fst (m t)).

(** A condition on outcomes that every interpreter failure satisfies. *)
Definition admits {A} (Q : outcome A -> Prop) : Prop :=
  (forall e, builtin e = true -> Q (Raise e)) /\ Q OutOfFuel.

(** On the scripted transport: the code stays within its loop budget and
    leaves no more lines pending than it found. *)
Definition tame {A} (m : eff Sim A) : Prop :=
  forall s,
    fst (m s) <> OutOfFuel
    /\ (List.length (rx (snd (m s))) <= List.length (rx s))%nat.

(** The same, for code whose loops need [n] to exceed the pending lines. *)
Definition fueled {A} (n : nat) (m : eff Sim A) : Prop :=
  forall s, (List.length (rx s) < n)%nat -> fst (m s) <> OutOfFuel.

(** On the scripted transport: the code writes nothing, lets at most [d]
    milliseconds pass, and takes lines off the front of the pending ones
    only. *)
Definition calm {A} (d : Z) (m : eff Sim A) : Prop :=
  forall s,
    tx (snd (m s)) = tx s
    /\ now s <= now (snd (m s)) <= now s + d
    /\ exists k, rx (snd (m s)) = skipn k (rx s).

(** How often a character occurs in a string. *)
Fixpoint count_char (c : ascii) (s : string) : nat :=
  match s with
  | EmptyString => O
  | String d r => ((if Ascii.eqb c d then 1 else 0) + count_char c r)%nat
  end.

(** Whether [sep] occurs somewhere in [s]. *)
Fixpoint occurs (sep s : string) : bool :=
  match s with
  | EmptyString => prefix sep EmptyString
  | String _ r => prefix sep s || occurs sep r
  end.

(** The values [setmode] lets through: what compares equal to 1, 2 or 3. *)
Definition mode_known (v : value) : Prop :=
  match as_int v with
  | Some z => 1 <= z <= 3
  | None => False
  end.

(** * Properties *)

(** ** Which exceptions a piece of code can end in *)

Lemma admits_quiet A : admits (@quiet_out A).
Proof. split; simpl; auto. Qed.

Lemma admits_stuck A : admits (@stuck_out A).
Proof. split; simpl; auto. Qed.

Lemma admits_engine A cmd : admits (@engine_out A cmd).
Proof.
  split; simpl; auto.
  intros e He; destruct e; simpl in *; auto; discriminate.
Qed.

Lemma pure_quiet A (o : outcome A) : pure_out o -> quiet_out o.
Proof. destruct o; simpl; auto. Qed.

Lemma engine_stuck A cmd (o : outcome A) :
  cmd <> VStr "" -> engine_out cmd o -> stuck_out o.
Proof.
  intros Hc; destruct o as [a | e |]; simpl; auto.
  destruct e; simpl; auto. intros [E _]; contradiction.
Qed.

Section Post.

Context {T : Type}.

Lemma post_bind A B (Q : outcome B -> Prop) (m : eff T A) (k : A -> eff T B) :
  admits Q -> post quiet_out m -> (forall a, post Q (k a)) -> post Q (ebind m k).
Proof.
  intros [Hb Hf] Hm Hk t. unfold ebind.
  specialize (Hm t). destruct (m t) as [[a | e |] t']; simpl in *.
  - apply Hk.
  - apply Hb, Hm.
  - exact Hf.
Qed.

(** Code that does not return makes what follows it unreachable. *)
Lemma post_bind_stuck A B (m : eff T A) (k : A -> eff T B) :
  post stuck_out m -> post stuck_out (ebind m k).
Proof.
  intros Hm t. unfold ebind.
  specialize (Hm t). destruct (m t) as [[a | e |] t']; simpl in *; tauto.
Qed.

Lemma post_bind_engine A B cmd (m : eff T A) (k : A -> eff T B) :
  post (engine_out cmd) m -> post (engine_out cmd) (ebind m k).
Proof.
  intros Hm t. unfold ebind.
  specialize (Hm t). destruct (m t) as [[a | e |] t']; simpl in *; tauto.
Qed.

Lemma post_eret A (Q : outcome A -> Prop) (a : A) : Q (Ret a) -> post Q (@eret T A a).
Proof. intros HQ t; exact HQ. Qed.

Lemma post_lift A (Q : outcome A -> Prop) (o : outcome A) : Q o -> post Q (@lift T A o).
Proof. intros HQ t; exact HQ. Qed.

Lemma post_raise A (Q : outcome A -> Prop) e : Q (Raise e) -> post Q (@raise T A e).
Proof. intros HQ t; exact HQ. Qed.

Lemma post_out_of_fuel A (Q : outcome A -> Prop) :
  Q OutOfFuel -> post Q (@out_of_fuel T A).
Proof. intros HQ t; exact HQ. Qed.

(** [output > 0], with [output] a list: the comparison raises. *)
Lemma post_list_gt_int A (Q : outcome A -> Prop) l z (k : bool -> eff T A) :
  admits Q -> post Q (ebind (lift (py_gt (VList l) (VInt z))) k).
Proof. intros [Hb _] t; simpl. now apply Hb. Qed.

End Post.

(** The built-in operations the engine uses raise built-in exceptions. *)
Lemma pure_list_item A (l : list A) i : pure_out (list_item l i).
Proof.
  unfold list_item.
  destruct (_ || _); simpl; auto.
  destruct (nth_error _ _); simpl; auto.
Qed.

Lemma pure_py_rstrip v : pure_out (py_rstrip v).
Proof. destruct v; simpl; auto. Qed.

Lemma pure_py_add a b : pure_out (py_add a b).
Proof. destruct a, b; simpl; auto. Qed.

Lemma pure_py_iter v : pure_out (py_iter v).
Proof. destruct v; simpl; auto. Qed.

Lemma pure_py_iadd a b : pure_out (py_iadd a b).
Proof.
  destruct a; try apply pure_py_add.
  simpl. pose proof (pure_py_iter b) as P.
  destruct (py_iter b); simpl in *; auto.
Qed.

Lemma pure_lookup table key : pure_out (lookup table key).
Proof.
  induction table as [| [k v] r IH]; simpl; auto.
  destruct (String.eqb k key); simpl; auto.
Qed.

Create HintDb quiet.
#[export] Hint Resolve admits_quiet admits_stuck admits_engine : quiet.
#[export] Hint Resolve post_eret post_lift post_raise post_out_of_fuel : quiet.
#[export] Hint Resolve pure_list_item pure_py_rstrip pure_py_add pure_py_iadd
  pure_py_iter pure_lookup pure_quiet : quiet.
#[export] Hint Extern 1 (quiet_out (Ret _)) => exact I : quiet.
#[export] Hint Extern 1 (quiet_out OutOfFuel) => exact I : quiet.
#[export] Hint Extern 1 (quiet_out (Raise _)) => reflexivity : quiet.
#[export] Hint Extern 1 (pure_out (Ret _)) => exact I : quiet.
#[export] Hint Extern 1 (pure_out (Raise _)) => reflexivity : quiet.

Ltac quiet_step :=
  match goal with
  | |- post _ (ebind (lift (py_gt (VList _) (VInt _))) _) =>
      apply post_list_gt_int; auto with quiet
  | |- post _ (ebind _ _) => apply post_bind; [auto with quiet | | intro]
  | |- post _ (if ?c then _ else _) => destruct c
  | |- post _ (match ?st with (_, _) => _ end) => destruct st
  | |- _ => solve [auto with quiet]
  end.

Section EngineOutcomes.

Context {T : Type} `{Transport T}.

Lemma quiet_do_write v : post quiet_out (do_write v).
Proof. intros t; exact I. Qed.

Lemma quiet_do_delay ms : post quiet_out (do_delay ms).
Proof. intros t; exact I. Qed.

Lemma quiet_do_any : post quiet_out do_any.
Proof. intros t; unfold do_any; destruct (uart_any t); exact I. Qed.

Lemma quiet_do_readline : post quiet_out do_readline.
Proof. intros t; unfold do_readline; destruct (uart_readline t); exact I. Qed.

Lemma quiet_do_micros : post quiet_out do_micros.
Proof. intros t; unfold do_micros; destruct (micros t); exact I. Qed.

Hint Resolve quiet_do_write quiet_do_delay quiet_do_any quiet_do_readline
  quiet_do_micros : quiet.

Lemma quiet_trace start : post quiet_out (trace start).
Proof. destruct start; simpl; repeat quiet_step. Qed.

Hint Resolve quiet_trace : quiet.

Lemma quiet_when c (m : eff T unit) : post quiet_out m -> post quiet_out (when c m).
Proof. intros Hm; unfold when; destruct c; auto with quiet. Qed.

Hint Resolve quiet_when : quiet.

Lemma quiet_last_stripped output : post (T:=T) quiet_out (last_stripped output).
Proof. unfold last_stripped; repeat quiet_step. Qed.

Hint Resolve quiet_last_stripped : quiet.

Lemma quiet_receive debug start output okay :
  post quiet_out (receive debug start output okay).
Proof. unfold receive; repeat quiet_step. Qed.

Hint Resolve quiet_receive : quiet.

Lemma quiet_phase1 n debug start output okay :
  post quiet_out (phase1 n debug start output okay).
Proof.
  revert output okay; induction n as [| n IH]; intros output okay; simpl.
  - auto with quiet.
  - repeat quiet_step; apply IH.
Qed.

Lemma quiet_drain fuel debug start output okay :
  post quiet_out (drain fuel debug start output okay).
Proof.
  revert output okay; induction fuel as [| f IH]; intros output okay; simpl.
  - auto with quiet.
  - repeat quiet_step; apply IH.
Qed.

Hint Resolve quiet_phase1 quiet_drain : quiet.

Lemma py_eq_empty_str v : py_eq v (VStr "") = true -> v = VStr "".
Proof.
  destruct v; simpl; try discriminate.
  intros E; apply String.eqb_eq in E; now subst.
Qed.

Lemma py_eq_empty_bytes v : py_eq v (VBytes "") = true -> v = VBytes "".
Proof.
  destruct v; simpl; try discriminate.
  intros E; apply String.eqb_eq in E; now subst.
Qed.

(** [sendcommand] does not return, whatever the transport does: an empty
    command is refused, and every other call ends at the latest at the
    test of line 113, where a list is compared with an integer. *)
Lemma sendcommand_outcome cmd timeout debug fuel :
  post (engine_out cmd) (sendcommand cmd timeout debug fuel).
Proof.
  unfold sendcommand.
  apply post_bind; [auto with quiet | repeat quiet_step | intros start].
  destruct (py_eq cmd (VStr "") || py_eq cmd (VBytes "")) eqn:E.
  - apply orb_true_iff in E as [E | E].
    + apply py_eq_empty_str in E; subst cmd. intros t; simpl. auto.
    + apply py_eq_empty_bytes in E; subst cmd. intros t; simpl. reflexivity.
  - repeat quiet_step.
Qed.

Lemma executecommand_outcome cmd timeout debug fuel :
  post (engine_out cmd) (executecommand cmd timeout debug fuel).
Proof. unfold executecommand. apply post_bind_engine, sendcommand_outcome. Qed.

Lemma py_add_bytes_not_empty_str a s v : py_add a (VBytes s) = Ret v -> v <> VStr "".
Proof. destruct a; simpl; intros E; inversion E; discriminate. Qed.

Lemma querycommand_outcome cmd timeout debug fuel :
  post stuck_out (querycommand cmd timeout debug fuel).
Proof.
  unfold querycommand. intros t. unfold ebind at 1. unfold lift at 1.
  destruct (py_add cmd (VBytes "?")) as [v | e |] eqn:E.
  - apply py_add_bytes_not_empty_str in E.
    apply (post_bind_stuck (T:=T)).
    intros t'. eapply engine_stuck; [exact E | apply sendcommand_outcome].
  - pose proof (pure_py_add cmd (VBytes "?")) as Q. rewrite E in Q. exact Q.
  - exact I.
Qed.

Lemma getmode_outcome fuel : post stuck_out (WIFI.getmode fuel).
Proof.
  unfold WIFI.getmode. simpl lookup.
  intros t. unfold ebind at 1. unfold lift at 1.
  apply (post_bind_stuck (T:=T)), querycommand_outcome.
Qed.

Lemma listallaccesspoints_outcome fuel : post stuck_out (WIFI.listallaccesspoints fuel).
Proof.
  unfold WIFI.listallaccesspoints. simpl lookup.
  intros t. unfold ebind at 1. unfold lift at 1.
  apply (post_bind_stuck (T:=T)).
  intros t'. eapply engine_stuck; [| apply executecommand_outcome]. discriminate.
Qed.

Lemma setaccesspointconfig_outcome ssid password channel encrypt_proto fuel :
  post stuck_out (WIFI.setaccesspointconfig ssid password channel encrypt_proto fuel).
Proof. unfold WIFI.setaccesspointconfig. apply post_bind_stuck, getmode_outcome. Qed.

End EngineOutcomes.

(** ** The loop budget on the scripted transport *)

Lemma tame_bind A B (m : eff Sim A) (k : A -> eff Sim B) :
  tame m -> (forall a, tame (k a)) -> tame (ebind m k).
Proof.
  intros Hm Hk s. unfold ebind.
  destruct (Hm s) as [Hf Hl]. destruct (m s) as [[a | e |] s1]; simpl in *.
  - destruct (Hk a s1) as [Hf' Hl']. split; [exact Hf' | lia].
  - split; [discriminate | exact Hl].
  - contradiction.
Qed.

Lemma tame_eret A (a : A) : tame (eret a).
Proof. intros s; simpl; split; [discriminate | lia]. Qed.

Lemma tame_raise A e : tame (@raise Sim A e).
Proof. intros s; simpl; split; [discriminate | lia]. Qed.

Lemma tame_lift A (o : outcome A) : pure_out o -> tame (lift o).
Proof.
  intros Ho s; simpl; split; [| lia].
  intros E; rewrite E in Ho; exact Ho.
Qed.

Lemma tame_do_write v : tame (do_write v).
Proof. intros s; simpl; split; [discriminate | lia]. Qed.

Lemma tame_do_delay ms : tame (do_delay ms).
Proof. intros s; simpl; split; [discriminate | lia]. Qed.

Lemma tame_do_any : tame do_any.
Proof. intros s; simpl; split; [discriminate | lia]. Qed.

Lemma tame_do_micros : tame do_micros.
Proof. intros s; simpl; split; [discriminate | lia]. Qed.

Lemma tame_do_readline : tame do_readline.
Proof.
  intros [clock pending sent]; unfold do_readline; simpl; unfold sim_readline; simpl.
  destruct pending as [| [at_ms l] rest]; simpl; [split; [discriminate | lia] |].
  destruct (at_ms <=? clock); simpl; split; try discriminate; lia.
Qed.

Create HintDb tame.
#[export] Hint Resolve tame_eret tame_raise tame_lift tame_do_write tame_do_delay
  tame_do_any tame_do_micros tame_do_readline : tame.
#[export] Hint Resolve pure_list_item pure_py_rstrip pure_py_add pure_py_iadd
  pure_py_iter pure_lookup : tame.
#[export] Hint Extern 1 (pure_out (Ret _)) => exact I : tame.
#[export] Hint Extern 1 (pure_out (Raise _)) => reflexivity : tame.

Ltac tame_step :=
  match goal with
  | |- tame (ebind _ _) => apply tame_bind; [| intro]
  | |- tame (if ?c then _ else _) => destruct c
  | |- tame (match ?st with (_, _) => _ end) => destruct st
  | |- _ => solve [auto with tame]
  end.

Lemma tame_trace start : tame (trace start).
Proof. destruct start; simpl; repeat tame_step. Qed.

#[export] Hint Resolve tame_trace : tame.

Lemma tame_when c (m : eff Sim unit) : tame m -> tame (when c m).
Proof. intros Hm; unfold when; destruct c; auto with tame. Qed.

#[export] Hint Resolve tame_when : tame.

Lemma tame_last_stripped output : tame (last_stripped output).
Proof. unfold last_stripped; repeat tame_step. Qed.

#[export] Hint Resolve tame_last_stripped : tame.

Lemma tame_receive debug start output okay : tame (receive debug start output okay).
Proof. unfold receive; repeat tame_step. Qed.

#[export] Hint Resolve tame_receive : tame.

Lemma tame_phase1 n debug start output okay : tame (phase1 n debug start output okay).
Proof.
  revert output okay; induction n as [| n IH]; intros output okay; simpl.
  - auto with tame.
  - repeat tame_step; apply IH.
Qed.

#[export] Hint Resolve tame_phase1 : tame.

(** Reading a line that is there takes it off the pending ones. *)
Lemma readline_consumes A (k : value -> eff Sim A) s :
  sim_any s = true ->
  (forall v, tame (k v)) ->
  fst (ebind do_readline k s) <> OutOfFuel
  /\ (List.length (rx (snd (ebind do_readline k s))) < List.length (rx s))%nat.
Proof.
  intros Hany Hk. unfold sim_any in Hany.
  destruct (rx s) as [| [at_ms l] rest] eqn:R; [discriminate |].
  unfold ebind, do_readline; simpl; unfold sim_readline. rewrite R, Hany.
  destruct (Hk l {| now := now s; rx := rest; tx := tx s |}) as [Hf Hl].
  simpl in Hl. split; [exact Hf | simpl; lia].
Qed.

Lemma receive_consumes debug start output okay s :
  sim_any s = true ->
  fst (receive debug start output okay s) <> OutOfFuel
  /\ (List.length (rx (snd (receive debug start output okay s))) < List.length (rx s))%nat.
Proof.
  intros Hany. unfold receive.
  apply readline_consumes; [exact Hany | intros v; repeat tame_step].
Qed.

(** The second loop ends once it has more rounds than there are lines. *)
Lemma drain_within_fuel fuel debug start output okay s :
  (List.length (rx s) < fuel)%nat ->
  fst (drain fuel debug start output okay s) <> OutOfFuel
  /\ (List.length (rx (snd (drain fuel debug start output okay s)))
      <= List.length (rx s))%nat.
Proof.
  revert output okay s; induction fuel as [| f IH]; intros output okay s Hlen; [lia |].
  assert (E : drain (S f) debug start output okay s
              = if sim_any s
                then ebind (receive debug start output okay)
                       (fun st => drain f debug start (fst st) (snd st)) s
                else (Ret (output, okay), s)).
  { simpl drain. unfold ebind at 1. simpl. destruct (sim_any s); reflexivity. }
  rewrite E; clear E.
  destruct (sim_any s) eqn:Hany.
  - unfold ebind.
    destruct (receive_consumes debug start output okay s Hany) as [Hf Hl].
    destruct (receive debug start output okay s) as [[st | e |] s1]; simpl in *.
    + destruct (IH (fst st) (snd st) s1 ltac:(lia)) as [Hf' Hl'].
      split; [exact Hf' | lia].
    + split; [discriminate | lia].
    + contradiction.
  - simpl; split; [discriminate | lia].
Qed.

Lemma fueled_tame A n (m : eff Sim A) : tame m -> fueled n m.
Proof. intros Hm s _; apply Hm. Qed.

Lemma fueled_bind A B n (m : eff Sim A) (k : A -> eff Sim B) :
  tame m -> (forall a, fueled n (k a)) -> fueled n (ebind m k).
Proof.
  intros Hm Hk s Hlen. unfold ebind.
  destruct (Hm s) as [Hf Hl]. destruct (m s) as [[a | e |] s1]; simpl in *.
  - apply Hk; lia.
  - discriminate.
  - contradiction.
Qed.

Lemma fueled_drain A fuel debug start output okay
    (k : list value * bool -> eff Sim A) :
  (forall st, fueled fuel (k st)) ->
  fueled fuel (ebind (drain fuel debug start output okay) k).
Proof.
  intros Hk s Hlen. unfold ebind.
  destruct (drain_within_fuel fuel debug start output okay s Hlen) as [Hf Hl].
  destruct (drain fuel debug start output okay s) as [[st | e |] s1]; simpl in *.
  - apply Hk; lia.
  - discriminate.
  - contradiction.
Qed.

(** On a scripted transport, with a budget above the number of lines the
    module sends, [sendcommand] ends, and it ends in an exception. *)
Lemma sendcommand_sim_raises cmd timeout debug fuel s :
  (List.length (rx s) < fuel)%nat ->
  exists e, fst (sendcommand cmd timeout debug fuel s) = Raise e.
Proof.
  intros Hlen.
  assert (F : fueled fuel (sendcommand cmd timeout debug fuel)).
  { unfold sendcommand.
    apply fueled_bind; [repeat tame_step | intros start].
    destruct (py_eq cmd (VStr "") || py_eq cmd (VBytes "")).
    - apply fueled_tame; repeat tame_step.
    - apply fueled_bind; [repeat tame_step | intros cmd'].
      apply fueled_bind; [repeat tame_step | intros _].
      apply fueled_bind; [repeat tame_step | intros _].
      apply fueled_bind; [repeat tame_step | intros [output okay]].
      apply fueled_bind; [repeat tame_step | intros _].
      apply fueled_drain; intros [output' okay'].
      intros s' _. simpl. discriminate. }
  pose proof (sendcommand_outcome cmd timeout debug fuel s) as Q.
  specialize (F s Hlen).
  destruct (fst (sendcommand cmd timeout debug fuel s)) as [a | e |].
  - contradiction.
  - now exists e.
  - contradiction.
Qed.

(** ** The guarded block on its own

    Lines 114-140 are never entered.  Run by itself, on the lines the first
    two loops would hand it, the block does what its comments describe. *)

Example handle_output_error_line :
  handle_output 0 false 400 None [VBytes (line "AT+CWMODE=9"); VBytes (line "ERROR")]
    false 0 (script [])
  = (Raise (CommandError "Command error!"), script []).
Proof. vm_compute. reflexivity. Qed.

Example handle_output_late_ok :
  handle_output 0 false 400 None [VBytes (line "AT+CWJAP")] false 0
    (script [(1500, line "OK")])
  = (Ret [VBytes (line "AT+CWJAP"); VBytes (line "OK")],
     {| now := 1500; rx := []; tx := [] |}).
Proof. vm_compute. reflexivity. Qed.

Example handle_output_late_fail :
  handle_output 0 false 400 None [VBytes (line "AT+CWJAP")] false 0
    (script [(1500, line "FAIL")])
  = (Raise (CommandFailure ""), {| now := 1500; rx := []; tx := [] |}).
Proof. vm_compute. reflexivity. Qed.

(** Default budget: 300 rounds of 10 ms. *)
Example handle_output_default_budget :
  handle_output 0 false 400 None [VBytes (line "AT+CWJAP")] false 0 (script [])
  = (Ret [VBytes (line "AT+CWJAP")], {| now := 3000; rx := []; tx := [] |}).
Proof. vm_compute. reflexivity. Qed.

(** [timeout / 10] is a true division: 25 ms give 2.5, and three rounds. *)
Example handle_output_fractional_budget :
  handle_output 25 false 400 None [VBytes (line "AT+CWJAP")] false 0 (script [])
  = (Ret [VBytes (line "AT+CWJAP")], {| now := 30; rx := []; tx := [] |}).
Proof. vm_compute. reflexivity. Qed.

(** ** The engine on scripted conversations *)

(** On a scripted transport and for a [bytes] command, what ends
    [sendcommand] is an exception of the interpreter, and [executecommand]
    passes it on. *)
Lemma sendcommand_sim_bytes cmd timeout debug fuel s :
  (List.length (rx s) < fuel)%nat ->
  exists e,
    builtin e = true
    /\ fst (sendcommand (VBytes cmd) timeout debug fuel s) = Raise e
    /\ fst (executecommand (VBytes cmd) timeout debug fuel s) = Raise e.
Proof.
  intros Hlen.
  destruct (sendcommand_sim_raises (VBytes cmd) timeout debug fuel s Hlen) as [e E].
  exists e. split; [| split; [exact E |]].
  - pose proof (sendcommand_outcome (VBytes cmd) timeout debug fuel s) as Q.
    rewrite E in Q. apply (engine_stuck _ (VBytes cmd) (@Raise unit e)); [discriminate |].
    destruct e; exact Q.
  - unfold executecommand, ebind.
    destruct (sendcommand (VBytes cmd) timeout debug fuel s) as [o s1].
    simpl in E; subst o. reflexivity.
Qed.

(** C1.  On a module that echoes the command and answers [OK], [sendcommand]
    reads both lines within the first loop and then raises [TypeError] at
    the test of line 113, [len(output > 0)]; it does not hand the lines
    back, and neither does [executecommand].  Whatever the command and
    whenever the two lines come, both calls end in an exception of the
    interpreter. *)
Theorem sendcommand_echo_ok_raises :
  (forall fuel,
     sendcommand (VBytes "AT") 0 false (S fuel) (script [(0, line "AT"); (0, line "OK")])
     = (Raise TypeError, {| now := 20; rx := []; tx := [VBytes (line "AT")] |}))
  /\ (forall fuel,
     executecommand (VBytes "AT") 0 false (S fuel) (script [(0, line "AT"); (0, line "OK")])
     = (Raise TypeError, {| now := 20; rx := []; tx := [VBytes (line "AT")] |}))
  /\ (forall cmd t1 t2 timeout debug fuel,
     exists e,
       builtin e = true
       /\ fst (sendcommand (VBytes cmd) timeout debug (S (S (S fuel)))
                 (script [(t1, line cmd); (t2, line "OK")])) = Raise e
       /\ fst (executecommand (VBytes cmd) timeout debug (S (S (S fuel)))
                 (script [(t1, line cmd); (t2, line "OK")])) = Raise e).
Proof.
  split; [| split].
  - intros fuel. reflexivity.
  - intros fuel. reflexivity.
  - intros cmd t1 t2 timeout debug fuel.
    apply sendcommand_sim_bytes. simpl. lia.
Qed.

(** C2.  On a module whose answer ends with the line [ERROR], with or
    without an echo before it, [sendcommand] raises [TypeError] at the test
    of line 113 and not [CommandError]: the classification of line 114 is
    not reached.  Whenever the lines come, the call ends in an exception of
    the interpreter, and on no transport and for no command does
    [sendcommand] raise [CommandError('Command error!')].  The second
    waiting loop is not entered: the clock stands where the first loop
    left it. *)
Theorem sendcommand_error_line_raises :
  (forall fuel,
     sendcommand (VBytes "AT+CWMODE=9") 0 false (S fuel)
       (script [(0, line "AT+CWMODE=9"); (0, line "ERROR")])
     = (Raise TypeError,
        {| now := 20; rx := []; tx := [VBytes (line "AT+CWMODE=9")] |}))
  /\ (forall fuel,
     sendcommand (VBytes "AT+CWMODE=9") 0 false (S fuel) (script [(0, line "ERROR")])
     = (Raise TypeError,
        {| now := 10; rx := []; tx := [VBytes (line "AT+CWMODE=9")] |}))
  /\ (forall cmd t1 t2 timeout debug fuel,
     exists e,
       builtin e = true
       /\ fst (sendcommand (VBytes cmd) timeout debug (S (S (S fuel)))
                 (script [(t1, line cmd); (t2, line "ERROR")])) = Raise e)
  /\ (forall (T : Type) (tr : Transport T) cmd timeout debug fuel (t : T),
     fst (sendcommand cmd timeout debug fuel t) <> Raise (CommandError "Command error!")).
Proof.
  split; [| split; [| split]].
  - intros fuel. reflexivity.
  - intros fuel. reflexivity.
  - intros cmd t1 t2 timeout debug fuel.
    destruct (sendcommand_sim_bytes cmd timeout debug (S (S (S fuel)))
                (script [(t1, line cmd); (t2, line "ERROR")])) as [e [B [E _]]].
    + simpl. lia.
    + now exists e.
  - intros T tr cmd timeout debug fuel t E.
    pose proof (sendcommand_outcome cmd timeout debug fuel t) as Q.
    rewrite E in Q. destruct Q as [_ Q]. discriminate Q.
Qed.

(** C3.  With an echo and no [OK] after the first two loops, [sendcommand]
    does not start the second waiting loop: it raises [TypeError] at the
    test of line 113.  An [OK] or a [FAIL] that the module sends later is
    left unread, and a silent module gives the same exception instead of
    the lines collected; a caller's timeout changes nothing.  Whatever
    follows the echo and whenever, the call ends in an exception of the
    interpreter; on no transport does [sendcommand] return or raise
    [CommandFailure]. *)
Theorem sendcommand_no_second_wait :
  (forall fuel,
     sendcommand (VBytes "AT+CWJAP") 0 false (S fuel)
       (script [(0, line "AT+CWJAP"); (1500, line "OK")])
     = (Raise TypeError,
        {| now := 10; rx := [(1500, VBytes (line "OK"))];
           tx := [VBytes (line "AT+CWJAP")] |}))
  /\ (forall fuel,
     sendcommand (VBytes "AT+CWJAP") 20000 false (S fuel)
       (script [(0, line "AT+CWJAP"); (1500, line "FAIL")])
     = (Raise TypeError,
        {| now := 10; rx := [(1500, VBytes (line "FAIL"))];
           tx := [VBytes (line "AT+CWJAP")] |}))
  /\ (forall fuel,
     sendcommand (VBytes "AT+CWLAP") 0 false (S fuel) (script [(0, line "AT+CWLAP")])
     = (Raise TypeError,
        {| now := 10; rx := []; tx := [VBytes (line "AT+CWLAP")] |}))
  /\ (forall cmd t1 later timeout debug fuel,
     exists e,
       builtin e = true
       /\ fst (sendcommand (VBytes cmd) timeout debug (S (List.length later + S fuel))
                 (script ((t1, line cmd) :: later))) = Raise e)
  /\ (forall (T : Type) (tr : Transport T) cmd timeout debug fuel (t : T) out msg,
     fst (sendcommand cmd timeout debug fuel t) <> Ret out
     /\ fst (sendcommand cmd timeout debug fuel t) <> Raise (CommandFailure msg)).
Proof.
  split; [| split; [| split; [| split]]].
  - intros fuel. reflexivity.
  - intros fuel. reflexivity.
  - intros fuel. reflexivity.
  - intros cmd t1 later timeout debug fuel.
    destruct (sendcommand_sim_bytes cmd timeout debug (S (List.length later + S fuel))
                (script ((t1, line cmd) :: later))) as [e [B [E _]]].
    + simpl. rewrite length_map. lia.
    + now exists e.
  - intros T tr cmd timeout debug fuel t out msg.
    pose proof (sendcommand_outcome cmd timeout debug fuel t) as Q.
    split; intros E; rewrite E in Q; simpl in Q; [exact Q | discriminate Q].
Qed.

(** C4.  The empty [str] command is refused with [CommandError] and the
    transport is left as it was.  The empty [bytes] command is stopped too
    before anything is written, but by a [TypeError]: the message of the
    [CommandError] is built by adding the command to a [str].  With [debug]
    set the clock has been read once before. *)
Theorem sendcommand_empty_command :
  forall (T : Type) (tr : Transport T) timeout fuel (t : T),
    sendcommand (VStr "") timeout false fuel t
    = (Raise (CommandError "Unknown command ''!"), t)
    /\ sendcommand (VBytes "") timeout false fuel t = (Raise TypeError, t)
    /\ sendcommand (VStr "") timeout true fuel t
       = (Raise (CommandError "Unknown command ''!"), snd (micros t))
    /\ sendcommand (VBytes "") timeout true fuel t = (Raise TypeError, snd (micros t))
    /\ executecommand (VStr "") timeout false fuel t
       = (Raise (CommandError "Unknown command ''!"), t)
    /\ executecommand (VBytes "") timeout false fuel t = (Raise TypeError, t).
Proof.
  intros T tr timeout fuel t.
  repeat split; try reflexivity;
    unfold sendcommand, ebind, do_micros; destruct (micros t); reflexivity.
Qed.

(** ** Extraction from the collected lines *)

(** C5, as the code has it.  The lines are indexed and sliced as they are:
    on fewer than three lines the slice [[1:-2]] of [setcommand] and
    [executecommand] is the empty list and nothing is raised, and on fewer
    than two lines the index [[1]] of [querycommand] raises the built-in
    [IndexError]. *)
Theorem short_response_extraction (output : list value) :
  (List.length output < 3)%nat ->
  body_lines output = Ret []
  /\ ((List.length output < 2)%nat -> second_line output = Raise IndexError).
Proof.
  intros H3.
  destruct output as [| a [| b [| c r]]]; simpl in H3; try lia;
    (split; [reflexivity | intros H2; simpl in H2; try lia; reflexivity]).
Qed.

Lemma short_response_extraction_witness :
  (List.length (@nil value) < 3)%nat
  /\ body_lines [] = Ret []
  /\ second_line [] = Raise IndexError.
Proof.
  assert (H3 : (List.length (@nil value) < 3)%nat) by (simpl; lia).
  split; [exact H3 |].
  split.
  - apply (short_response_extraction [] H3).
  - apply (short_response_extraction [] H3). simpl; lia.
Defined.

(** C5, as stated, fails on an empty collection and on an echo alone: the
    slice raises no error at all, and the error of the index is the
    unchecked [IndexError], not one of the module's own classes.  A query
    to a module that stays silent does not end in an error of the module
    either. *)
Lemma short_response_no_typed_error :
  ~ (exists e, body_lines [] = Raise e)
  /\ ~ (exists e, body_lines [VBytes (line "AT")] = Raise e)
  /\ ~ (exists e, second_line [] = Raise e /\ builtin e = false)
  /\ ~ (exists e, second_line [VBytes (line "AT+CWMODE?")] = Raise e /\ builtin e = false)
  /\ ~ (exists e, fst (querycommand (VBytes "AT+CWMODE") 0 false 1 (script [])) = Raise e
                  /\ builtin e = false).
Proof.
  split; [| split; [| split; [| split]]]; intros [e E].
  - discriminate E.
  - discriminate E.
  - destruct E as [E B]. inversion E; subst. discriminate B.
  - destruct E as [E B]. inversion E; subst. discriminate B.
  - destruct E as [E B]. vm_compute in E. inversion E; subst. discriminate B.
Qed.

(** ** Access point lines *)

Lemma joinargs_loop_rendered args acc :
  joinargs_loop args (map VBytes acc)
  = Ret (map VBytes (acc ++ map rendered args)%list).
Proof.
  revert acc; induction args as [| arg rest IH]; intros acc; simpl.
  - now rewrite app_nil_r.
  - assert (E : joinargs_item arg = Ret (VBytes (rendered arg)))
      by (destruct arg; reflexivity).
    rewrite E; simpl.
    replace (map VBytes acc ++ [VBytes (rendered arg)])%list
      with (map VBytes (acc ++ [rendered arg])%list) by now rewrite map_app.
    rewrite IH, <- app_assoc. reflexivity.
Qed.

Lemma bytes_items_map l : bytes_items (map VBytes l) = Ret l.
Proof. induction l as [| x r IH]; simpl; [| rewrite IH]; reflexivity. Qed.

(** Text in double quotes, everything else through [str], commas between,
    no blanks: the argument string [setcommand] builds from its arguments. *)
Lemma joinargs_tuple args :
  joinargs [VTuple args] = Ret (VBytes (join_with "," (map rendered args))).
Proof.
  pose proof (joinargs_loop_rendered args []) as E; simpl in E.
  unfold joinargs; simpl. rewrite E; simpl.
  now rewrite bytes_items_map.
Qed.

Lemma joinargs_several a b rest :
  joinargs (a :: b :: rest)
  = Ret (VBytes (join_with "," (map rendered (a :: b :: rest)))).
Proof.
  pose proof (joinargs_loop_rendered (a :: b :: rest) []) as E; simpl in E.
  unfold joinargs. simpl List.length.
  replace (Z.of_nat (S (S (List.length rest))) =? 1) with false
    by (symmetry; apply Z.eqb_neq; lia).
  simpl. simpl in E. rewrite E; simpl.
  now rewrite bytes_items_map.
Qed.

(** C7.  [joinargs("myssid", 10)] is the byte string ["myssid",10], and the
    line [0,"ssid",-55,"aa:bb:cc:dd:ee:ff",6] parses to a record with
    encryption protocol 0, rssi -55 and channel 6.  In general two or more
    arguments, and the argument tuple [setcommand] passes on, are joined
    with commas and nothing else between them, a [str] in double quotes and
    an integer in decimal. *)
Theorem joinargs_and_parse_example :
  joinargs [VStr "myssid"; VInt 10] = Ret (VBytes (dq "myssid" ++ ",10"))
  /\ parseaccesspointstr (VBytes ap_line)
     = Ret (Some {| encryption_protocol := 0;
                    ssid := VBytes (dq "ssid");
                    rssi := -55;
                    mac := VBytes (dq "aa:bb:cc:dd:ee:ff");
                    channel := 6 |})
  /\ (forall a b rest,
        joinargs (a :: b :: rest)
        = Ret (VBytes (join_with "," (map rendered (a :: b :: rest)))))
  /\ (forall args,
        joinargs [VTuple args] = Ret (VBytes (join_with "," (map rendered args))))
  /\ (forall s, rendered (VStr s) = dq s)
  /\ (forall z, rendered (VInt z) = string_of_Z z)
  /\ string_of_Z 10 = "10" /\ string_of_Z (-55) = "-55".
Proof.
  split; [reflexivity |].
  split; [reflexivity |].
  split; [apply joinargs_several |].
  split; [apply joinargs_tuple |].
  repeat split.
Qed.

Lemma digits_value_more_digits s after acc :
  digits_value after acc s = None <-> more_digits after s = false.
Proof.
  revert after acc; induction s as [| c r IH]; intros after acc; simpl.
  - destruct after; simpl; split; congruence.
  - destruct (is_digit c); [apply IH |].
    destruct (Ascii.eqb c "_" && negb after); simpl; [apply IH | tauto].
Qed.

Lemma unsigned_value_nonempty_digits s :
  unsigned_value s = None <-> nonempty_digits s = false.
Proof.
  destruct s as [| c r]; simpl; [tauto |].
  destruct (is_digit c); simpl; [apply digits_value_more_digits | tauto].
Qed.

(** [int] fails on a byte string exactly when it is not a decimal integer. *)
Lemma parse_int_decimal s : parse_int s = None <-> is_decimal_integer s = false.
Proof.
  unfold parse_int, is_decimal_integer.
  destruct (split_sign (rstrip (lstrip s))) as [neg digits]; simpl.
  rewrite <- unsigned_value_nonempty_digits.
  destruct (unsigned_value digits); simpl; split; congruence.
Qed.

Lemma py_int_not_decimal s :
  is_decimal_integer s = false -> py_int (VBytes s) = Raise ValueError.
Proof. intros E; apply parse_int_decimal in E; simpl; now rewrite E. Qed.

(** What [int] takes for a decimal integer: underscores group digits, one
    at a time and between digits only. *)
Example parse_int_examples :
  map parse_int ["6"; "-55"; " +7 "; "-5_5"; "1_2_3"; "0_0"]
  = [Some 6; Some (-55); Some 7; Some (-55); Some 123; Some 0]
  /\ map parse_int [""; "-"; "-5x"; "5 5"; "- 5"; "5__5"; "_5"; "5_"; "_"; "0x1f"; "1.5"]
     = [None; None; None; None; None; None; None; None; None; None; None].
Proof. split; reflexivity. Qed.

Example parseaccesspointstr_grouped_digits :
  is_decimal_integer "-5_5" = true
  /\ parseaccesspointstr (VBytes "0,net,-5_5,aa:bb,6")
     = Ret (Some {| encryption_protocol := 0; ssid := VBytes "net"; rssi := -55;
                    mac := VBytes "aa:bb"; channel := 6 |}).
Proof. split; reflexivity. Qed.

(** C10.  A line of exactly five comma-separated fields whose first, third
    or fifth field is not a decimal integer (blanks around, an optional
    sign, digits that single underscores may group) makes
    [parseaccesspointstr] raise [ValueError]: it returns neither a record
    nor [None]. *)
Theorem parseaccesspointstr_raises (ap_str enc_mode ssid rssi mac channel : string) :
  split_on "," ap_str = [enc_mode; ssid; rssi; mac; channel] ->
  is_decimal_integer enc_mode = false
  \/ is_decimal_integer rssi = false
  \/ is_decimal_integer channel = false ->
  parseaccesspointstr (VBytes ap_str) = Raise ValueError.
Proof.
  intros Hsplit Hbad.
  unfold parseaccesspointstr, py_split. rewrite Hsplit. simpl map. simpl obind.
  cbv beta iota.
  change (Z.of_nat (List.length [VBytes enc_mode; VBytes ssid; VBytes rssi;
                                 VBytes mac; VBytes channel]) =? 5) with true.
  cbv iota.
  destruct (parse_int enc_mode) as [e |] eqn:E; simpl; [| reflexivity].
  destruct (parse_int rssi) as [r |] eqn:R; simpl; [| reflexivity].
  destruct (parse_int channel) as [c |] eqn:C; simpl; [| reflexivity].
  destruct Hbad as [B | [B | B]]; apply parse_int_decimal in B; congruence.
Qed.

Lemma parseaccesspointstr_raises_witness :
  parseaccesspointstr (VBytes "3,net,-5x,aa:bb,6") = Raise ValueError.
Proof.
  apply (parseaccesspointstr_raises "3,net,-5x,aa:bb,6" "3" "net" "-5x" "aa:bb" "6").
  - reflexivity.
  - right; left; reflexivity.
Defined.

(** Line 281 names [paresaccesspointstr], which the module does not bind:
    whatever the line, the body of the loop does not complete. *)
Lemma scan_line_never_returns ap aps out : WIFI.scan_line ap aps <> Ret out.
Proof.
  unfold WIFI.scan_line. simpl lookup. simpl py_slice. simpl py_add.
  simpl global_function. cbv beta iota.
  destruct (py_rstrip ap) as [l | |]; simpl; try discriminate.
  destruct (py_split l _) as [parts | |]; simpl; try discriminate.
  destruct (list_item parts 1) as [field | |]; simpl; try discriminate.
  destruct (py_slice field _ _); simpl; discriminate.
Qed.

Lemma scan_lines_never_return ap rest aps out : WIFI.scan_lines (ap :: rest) aps <> Ret out.
Proof.
  simpl. destruct (WIFI.scan_line ap aps) as [aps' | |] eqn:E; simpl; try discriminate.
  now apply scan_line_never_returns in E.
Qed.

(** C6.  On the answer of a scan, [listallaccesspoints] raises [TypeError]
    out of [sendcommand] (line 113) before it looks at a line, and it
    returns on no transport.  The loop over the lines, run on its own,
    stops at the first line with [NameError], a well-formed line included,
    and with [IndexError] on a line without the [+CWLAP:] prefix: it
    returns for the empty answer only. *)
Theorem listallaccesspoints_raises :
  (forall fuel,
     WIFI.listallaccesspoints (S fuel) (script scan_reply)
     = (Raise TypeError, {| now := 40; rx := []; tx := [VBytes (line "AT+CWLAP")] |}))
  /\ WIFI.scan_lines [VBytes (line ("+CWLAP:(" ++ ap_line ++ ")"))] [] = Raise NameError
  /\ WIFI.scan_lines [VBytes (line "rubbish")] [] = Raise IndexError
  /\ (forall ap rest aps out, WIFI.scan_lines (ap :: rest) aps <> Ret out)
  /\ (forall (T : Type) (tr : Transport T) fuel (t : T) out,
        fst (WIFI.listallaccesspoints fuel t) <> Ret out).
Proof.
  repeat split.
  - intros ap rest aps out. apply scan_lines_never_return.
  - intros T tr fuel t out E.
    pose proof (listallaccesspoints_outcome fuel t) as Q. rewrite E in Q. exact Q.
Qed.

(** ** Wi-Fi mode and access point configuration *)

(** What [getmode] does with an integer once it has read it: 1, 2 and 3
    are handed back, every other integer is an [UnknownWIFIModeError]. *)
Lemma mode_of_answer_spec answer parts field mode :
  py_split answer (VBytes ":") = Ret parts ->
  list_item parts 1 = Ret field ->
  py_int field = Ret mode ->
  WIFI.mode_of_answer answer
  = if (mode =? 1) || (mode =? 2) || (mode =? 3)
    then Ret mode
    else Raise (UnknownWIFIModeError ("Mode '" ++ string_of_Z mode ++ "' not known!")).
Proof.
  intros Hs Hi Hm. unfold WIFI.mode_of_answer.
  rewrite Hs; simpl. rewrite Hi; simpl. rewrite Hm; simpl.
  rewrite orb_false_r, orb_assoc. reflexivity.
Qed.

(** C9.  The keys of [WIFI_MODES] are 1, 2 and 3, and the check [getmode]
    applies to what it parsed accepts these and refuses 5.  [getmode] itself
    reaches the check on no transport: reading the mode back goes through
    [sendcommand], which raises [TypeError] at line 113, so a module in
    mode 1 or reporting 5 gets that exception, and [getmode] neither
    returns nor raises [UnknownWIFIModeError]. *)
Theorem getmode_raises :
  keys WIFI_MODES = [VInt 1; VInt 2; VInt 3]
  /\ WIFI.mode_of_answer (VBytes "+CWMODE:1") = Ret 1
  /\ WIFI.mode_of_answer (VBytes "+CWMODE:2") = Ret 2
  /\ WIFI.mode_of_answer (VBytes "+CWMODE:3") = Ret 3
  /\ WIFI.mode_of_answer (VBytes "+CWMODE:5")
     = Raise (UnknownWIFIModeError "Mode '5' not known!")
  /\ (forall fuel,
        WIFI.getmode (S fuel) (script (mode_reply "1"))
        = (Raise TypeError, {| now := 40; rx := []; tx := [VBytes (line "AT+CWMODE?")] |}))
  /\ (forall fuel,
        WIFI.getmode (S fuel) (script (mode_reply "5"))
        = (Raise TypeError, {| now := 40; rx := []; tx := [VBytes (line "AT+CWMODE?")] |}))
  /\ (forall (T : Type) (tr : Transport T) fuel (t : T) mode msg,
        fst (WIFI.getmode fuel t) <> Ret mode
        /\ fst (WIFI.getmode fuel t) <> Raise (UnknownWIFIModeError msg)).
Proof.
  do 7 (split; [try reflexivity; intros fuel; reflexivity |]).
  intros T tr fuel t mode msg.
  pose proof (getmode_outcome fuel t) as Q.
  split; intros E; rewrite E in Q; simpl in Q; [exact Q | discriminate Q].
Qed.

(** The checks of lines 312 and 314 join their two tests with [and]: they
    refuse no integer. *)
Lemma check_config_accepts_integers mode ssid password channel encrypt_proto :
  mode = 2 \/ mode = 3 ->
  8 <= text_length password <= 64 ->
  WIFI.check_config mode (VStr ssid) (VStr password) (VInt channel) (VInt encrypt_proto)
  = Ret tt.
Proof.
  intros Hm Hp. unfold WIFI.check_config.
  assert (Em : negb (py_in (VInt mode) [VInt 2; VInt 3]) = false)
    by (destruct Hm; subst; reflexivity).
  rewrite Em. simpl is_str. simpl negb at 1 2. cbv iota. simpl py_len. simpl obind.
  assert (El : (64 <? text_length password) || (text_length password <? 8) = false).
  { apply orb_false_iff; split; apply Z.ltb_ge; lia. }
  rewrite El, !andb_false_r. reflexivity.
Qed.

Lemma check_config_password_length mode ssid password channel encrypt_proto :
  mode = 2 \/ mode = 3 ->
  text_length password < 8 \/ 64 < text_length password ->
  WIFI.check_config mode (VStr ssid) (VStr password) channel encrypt_proto
  = Raise (CommandFailure "Wrong password length (8..64)!").
Proof.
  intros Hm Hp. unfold WIFI.check_config.
  assert (Em : negb (py_in (VInt mode) [VInt 2; VInt 3]) = false)
    by (destruct Hm; subst; reflexivity).
  rewrite Em. simpl is_str. simpl negb at 1 2. cbv iota. simpl py_len. simpl obind.
  assert (El : (64 <? text_length password) || (text_length password <? 8) = true).
  { apply orb_true_iff. destruct Hp; [right | left]; apply Z.ltb_lt; lia. }
  rewrite El. reflexivity.
Qed.

(** The length is counted in characters: seven digits and [é] make eight
    characters in nine bytes and pass, four times [é] is eight bytes in
    four characters and is refused. *)
Example check_config_counts_characters :
  WIFI.check_config 2 (VStr "net") (VStr ("1234567" ++ e_acute)) (VInt 6) (VInt 0) = Ret tt
  /\ WIFI.check_config 2 (VStr "net") (VStr (e_acute ++ e_acute ++ e_acute ++ e_acute))
       (VInt 6) (VInt 0)
     = Raise (CommandFailure "Wrong password length (8..64)!").
Proof. split; reflexivity. Qed.

(** C8.  With the module in access point mode, [setaccesspointconfig]
    raises [TypeError] out of [WIFI.getmode] (line 113 of [sendcommand])
    and reaches none of its checks; only the mode query is written.  The
    checks, run on their own for mode 2 and [str] arguments: passwords of
    7 and 65 characters are refused with [CommandFailure], passwords of 8
    and 64 characters pass, and every integer channel and every integer
    encryption protocol passes, 20 and 1 included. *)
Theorem setaccesspointconfig_raises :
  (forall fuel,
     WIFI.setaccesspointconfig (VStr "net") (VStr password8) (VInt 20) (VInt 0) (S fuel)
       (script (mode_reply "2"))
     = (Raise TypeError, {| now := 40; rx := []; tx := [VBytes (line "AT+CWMODE?")] |}))
  /\ (forall (T : Type) (tr : Transport T) ssid password channel encrypt_proto fuel (t : T) msg,
     fst (WIFI.setaccesspointconfig ssid password channel encrypt_proto fuel t)
     <> Raise (CommandFailure msg))
  /\ WIFI.check_config 2 (VStr "net") (VStr "1234567") (VInt 6) (VInt 0)
     = Raise (CommandFailure "Wrong password length (8..64)!")
  /\ WIFI.check_config 2 (VStr "net") (VStr (password64 ++ "1")) (VInt 6) (VInt 0)
     = Raise (CommandFailure "Wrong password length (8..64)!")
  /\ WIFI.check_config 2 (VStr "net") (VStr password8) (VInt 6) (VInt 0) = Ret tt
  /\ WIFI.check_config 2 (VStr "net") (VStr password64) (VInt 6) (VInt 0) = Ret tt
  /\ (forall channel encrypt_proto,
     WIFI.check_config 2 (VStr "net") (VStr password8) (VInt channel) (VInt encrypt_proto)
     = Ret tt).
Proof.
  split; [intros fuel; reflexivity |].
  split.
  { intros T tr ssid password channel encrypt_proto fuel t msg E.
    pose proof (setaccesspointconfig_outcome ssid password channel encrypt_proto fuel t) as Q.
    rewrite E in Q. discriminate Q. }
  do 4 (split; [reflexivity |]).
  intros channel encrypt_proto.
  apply check_config_accepts_integers; [now left | vm_compute; split; discriminate].
Qed.

(** * Further properties of the module *)

(** ** What the engine writes and how long it waits *)

Lemma calm_bind A B d1 d2 (m : eff Sim A) (k : A -> eff Sim B) :
  0 <= d2 -> calm d1 m -> (forall a, calm d2 (k a)) -> calm (d1 + d2) (ebind m k).
Proof.
  intros Hd Hm Hk s. unfold ebind.
  destruct (Hm s) as [Ht [Hn [j Hr]]]. destruct (m s) as [[a | e |] s1]; simpl in *.
  - destruct (Hk a s1) as [Ht' [Hn' [j' Hr']]].
    split; [congruence | split; [lia |]].
    exists (j + j')%nat. rewrite Hr', Hr, skipn_skipn. f_equal. lia.
  - split; [exact Ht | split; [lia | now exists j]].
  - split; [exact Ht | split; [lia | now exists j]].
Qed.

Lemma calm_bind0 A B (m : eff Sim A) (k : A -> eff Sim B) :
  calm 0 m -> (forall a, calm 0 (k a)) -> calm 0 (ebind m k).
Proof. intros Hm Hk. apply (calm_bind A B 0 0); [lia | exact Hm | exact Hk]. Qed.

Lemma calm_weaken A d d' (m : eff Sim A) : d <= d' -> calm d m -> calm d' m.
Proof.
  intros Hd Hm s. destruct (Hm s) as [Ht [Hn Hr]].
  split; [exact Ht | split; [lia | exact Hr]].
Qed.

Ltac calm_now := intros s; simpl; split; [reflexivity | split; [lia | now exists 0%nat]].

Lemma calm_eret A (a : A) : calm 0 (eret a).
Proof. calm_now. Qed.

Lemma calm_raise A e : calm 0 (@raise Sim A e).
Proof. calm_now. Qed.

Lemma calm_lift A (o : outcome A) : calm 0 (lift o).
Proof. calm_now. Qed.

Lemma calm_out_of_fuel A : calm 0 (@out_of_fuel Sim A).
Proof. calm_now. Qed.

Lemma calm_do_any : calm 0 do_any.
Proof. calm_now. Qed.

Lemma calm_do_micros : calm 0 do_micros.
Proof. calm_now. Qed.

Lemma calm_do_delay ms : 0 <= ms -> calm ms (do_delay ms).
Proof. intros Hms. calm_now. Qed.

Lemma calm_do_readline : calm 0 do_readline.
Proof.
  intros [clock pending sent]; unfold do_readline; simpl; unfold sim_readline; simpl.
  destruct pending as [| [at_ms l] rest]; simpl;
    [split; [reflexivity | split; [lia | now exists 0%nat]] |].
  destruct (at_ms <=? clock); simpl;
    (split; [reflexivity | split; [lia |]]);
    [now exists 1%nat | now exists 0%nat].
Qed.

Create HintDb calm.
#[export] Hint Resolve calm_eret calm_raise calm_lift calm_out_of_fuel calm_do_any
  calm_do_micros calm_do_readline : calm.

(** Nothing happens after an exception. *)
Lemma calm_raised A B e (k : A -> eff Sim B) : calm 0 (ebind (lift (Raise e)) k).
Proof. calm_now. Qed.

Ltac calm_step :=
  match goal with
  | |- calm 0 (ebind (lift (Raise _)) _) => apply calm_raised
  | |- calm 0 (ebind _ _) => apply calm_bind0; [| intro]
  | |- calm _ (if ?c then _ else _) => destruct c
  | |- calm _ (match ?st with (_, _) => _ end) => destruct st
  | |- _ => solve [auto with calm]
  end.

Lemma calm_trace start : calm 0 (trace start).
Proof. destruct start; simpl; repeat calm_step. Qed.

#[export] Hint Resolve calm_trace : calm.

Lemma calm_when c (m : eff Sim unit) : calm 0 m -> calm 0 (when c m).
Proof. intros Hm; unfold when; destruct c; auto with calm. Qed.

#[export] Hint Resolve calm_when : calm.

Lemma calm_last_stripped output : calm 0 (last_stripped output).
Proof. unfold last_stripped; repeat calm_step. Qed.

#[export] Hint Resolve calm_last_stripped : calm.

Lemma calm_receive debug start output okay : calm 0 (receive debug start output okay).
Proof. unfold receive; repeat calm_step. Qed.

#[export] Hint Resolve calm_receive : calm.

(** The first loop pauses 10 ms for each line it reads, and not otherwise. *)
Lemma calm_phase1 n debug start output okay :
  calm (10 * Z.of_nat n) (phase1 n debug start output okay).
Proof.
  revert output okay; induction n as [| n IH]; intros output okay.
  - simpl. auto with calm.
  - replace (10 * Z.of_nat (S n)) with (0 + (10 + 10 * Z.of_nat n)) by lia.
    simpl phase1.
    apply calm_bind; [lia | auto with calm | intros a].
    apply calm_bind; [lia | | intros st; apply IH].
    destruct a.
    + replace 10 with (0 + (10 + 0)) by lia.
      apply calm_bind; [lia | auto with calm | intros st].
      apply calm_bind; [lia | apply calm_do_delay; lia | intros _; auto with calm].
    + apply (calm_weaken _ 0); [lia | auto with calm].
Qed.

Lemma calm_drain fuel debug start output okay :
  calm 0 (drain fuel debug start output okay).
Proof.
  revert output okay; induction fuel as [| f IH]; intros output okay; simpl.
  - auto with calm.
  - repeat calm_step; apply IH.
Qed.

#[export] Hint Resolve calm_drain : calm.

#[local] Arguments phase1 : simpl never.
#[local] Arguments drain : simpl never.
#[local] Arguments handle_output : simpl never.

Lemma calm_at A d (m : eff Sim A) s o s' :
  calm d m -> m s = (o, s') ->
  tx s' = tx s /\ now s <= now s' <= now s + d /\ exists k, rx s' = skipn k (rx s).
Proof. intros Hm E. specialize (Hm s). rewrite E in Hm. exact Hm. Qed.

(** A run of [sendcommand] on the scripted transport: the command goes
    out once, with the line end, and the clock moves by a second at most. *)
Lemma sendcommand_sim_run cmd cmd' timeout debug fuel s o s' :
  py_eq cmd (VStr "") || py_eq cmd (VBytes "") = false ->
  py_iadd cmd (VStr CRLF) = Ret cmd' ->
  sendcommand cmd timeout debug fuel s = (o, s') ->
  tx s' = (tx s ++ [cmd'])%list
  /\ now s <= now s' <= now s + 1000
  /\ exists k, rx s' = skipn k (rx s).
Proof.
  intros Hc Hadd H.
  unfold sendcommand in H.
  destruct debug;
    unfold ebind at 1 in H; simpl in H; rewrite Hc in H;
    unfold ebind at 1 in H; unfold lift at 1 in H; rewrite Hadd in H;
    do 2 (unfold ebind at 1 in H; simpl in H);
    match type of H with
    | ebind ?m ?K ?s1 = _ =>
        assert (C : calm (10 * Z.of_nat 100 + 0) (ebind m K))
          by (apply calm_bind; [lia | apply calm_phase1 | intros [output okay]];
              repeat calm_step)
    end;
    destruct (calm_at _ _ _ _ _ _ C H) as [Ht [Hn Hr]]; simpl in Ht, Hn, Hr;
    (split; [exact Ht | split; [lia | exact Hr]]).
Qed.

Lemma py_eq_bytes_nonempty c :
  c <> EmptyString -> py_eq (VBytes c) (VStr "") || py_eq (VBytes c) (VBytes "") = false.
Proof. intros Hc; simpl. now apply String.eqb_neq. Qed.

Lemma py_eq_str_nonempty c :
  c <> EmptyString -> py_eq (VStr c) (VStr "") || py_eq (VStr c) (VBytes "") = false.
Proof. intros Hc; simpl. rewrite orb_false_r. now apply String.eqb_neq. Qed.

(** X1.  [sendcommand] writes a command that is not empty exactly once,
    with [\r\n] appended and in the type it came in, and writes nothing
    else, whatever the module sends and however the call ends. *)
Theorem sendcommand_writes_once c timeout debug fuel s :
  c <> EmptyString ->
  tx (snd (sendcommand (VBytes c) timeout debug fuel s))
  = (tx s ++ [VBytes (c ++ CRLF)])%list
  /\ tx (snd (sendcommand (VStr c) timeout debug fuel s))
     = (tx s ++ [VStr (c ++ CRLF)])%list.
Proof.
  intros Hc. split.
  - destruct (sendcommand (VBytes c) timeout debug fuel s) as [o s'] eqn:E.
    apply (sendcommand_sim_run _ (VBytes (c ++ CRLF))) in E;
      [exact (proj1 E) | now apply py_eq_bytes_nonempty | reflexivity].
  - destruct (sendcommand (VStr c) timeout debug fuel s) as [o s'] eqn:E.
    apply (sendcommand_sim_run _ (VStr (c ++ CRLF))) in E;
      [exact (proj1 E) | now apply py_eq_str_nonempty | reflexivity].
Qed.

Lemma sendcommand_writes_once_witness :
  tx (snd (sendcommand (VBytes "AT+GMR") 0 false 5 (script [(0, line "AT+GMR")])))
  = [VBytes (line "AT+GMR")].
Proof.
  apply (sendcommand_writes_once "AT+GMR" 0 false 5 (script [(0, line "AT+GMR")])).
  discriminate.
Defined.

(** X2.  A call of [sendcommand] lets the clock advance by one second at
    most, for every command, timeout and script: the only pauses are the
    10 ms after each of the at most 100 lines the first loop reads, and the
    caller's [timeout] adds nothing.  It takes lines off the front of what
    the module has sent and leaves the rest as it is, in order: what it has
    not read is still there for the next call to read. *)
Theorem sendcommand_clock_and_lines cmd timeout debug fuel s :
  now s <= now (snd (sendcommand cmd timeout debug fuel s)) <= now s + 1000
  /\ exists k, rx (snd (sendcommand cmd timeout debug fuel s)) = skipn k (rx s).
Proof.
  destruct (sendcommand cmd timeout debug fuel s) as [o s'] eqn:E. simpl.
  destruct (py_eq cmd (VStr "") || py_eq cmd (VBytes "")) eqn:Hc.
  - assert (Hs : forall t : Sim, micros t = (1000 * now t, t)) by reflexivity.
    apply orb_true_iff in Hc as [Hc | Hc];
      [apply py_eq_empty_str in Hc | apply py_eq_empty_bytes in Hc]; subst cmd;
      destruct debug; unfold sendcommand, ebind, do_micros in E; rewrite ?Hs in E;
      simpl in E; inversion E; subst; (split; [lia | now exists 0%nat]).
  - destruct (py_iadd cmd (VStr CRLF)) as [cmd' | e |] eqn:Ha.
    + eapply sendcommand_sim_run in E; [| exact Hc | exact Ha].
      destruct E as [_ [Hn Hr]]. split; [lia | exact Hr].
    + unfold sendcommand in E.
      destruct debug; unfold ebind at 1 in E; simpl in E; rewrite Hc in E;
        unfold ebind at 1 in E; unfold lift at 1 in E; rewrite Ha in E;
        inversion E; subst; simpl; (split; [lia | now exists 0%nat]).
    + unfold sendcommand in E.
      destruct debug; unfold ebind at 1 in E; simpl in E; rewrite Hc in E;
        unfold ebind at 1 in E; unfold lift at 1 in E; rewrite Ha in E;
        inversion E; subst; simpl; (split; [lia | now exists 0%nat]).
Qed.

(** While nothing can be read the first loop neither reads nor pauses. *)
Lemma phase1_idle n debug start output okay s :
  sim_any s = false ->
  phase1 n debug start output okay s = (Ret (output, okay), s).
Proof.
  intros Hany. induction n as [| n IH]; [reflexivity |].
  unfold phase1; fold (phase1 (T:=Sim)).
  unfold ebind at 1. change (do_any s) with (Ret (sim_any s), s). rewrite Hany.
  unfold ebind at 1. simpl fst. simpl snd. exact IH.
Qed.

Lemma drain_idle fuel debug start output okay s :
  sim_any s = false ->
  drain (S fuel) debug start output okay s = (Ret (output, okay), s).
Proof.
  intros Hany. unfold drain. unfold ebind at 1.
  change (do_any s) with (Ret (sim_any s), s). rewrite Hany. reflexivity.
Qed.

(** X3.  If no line can be read when the command has been written, the
    first loop runs its 100 polls without a pause and the call is over at
    once, whenever the answer would have come: with [debug] off it ends in
    [NameError], at the unguarded [print] of line 102 that reads [start];
    with [debug] on it ends in [TypeError] at line 113.  The pending lines
    and the clock are as before. *)
Theorem sendcommand_silent_module c timeout fuel s :
  c <> EmptyString ->
  sim_any s = false ->
  sendcommand (VBytes c) timeout false fuel s
  = (Raise NameError,
     {| now := now s; rx := rx s; tx := (tx s ++ [VBytes (c ++ CRLF)])%list |})
  /\ sendcommand (VBytes c) timeout true (S fuel) s
     = (Raise TypeError,
        {| now := now s; rx := rx s; tx := (tx s ++ [VBytes (c ++ CRLF)])%list |}).
Proof.
  intros Hc Hany. apply String.eqb_neq in Hc.
  set (s1 := {| now := now s; rx := rx s; tx := (tx s ++ [VBytes (c ++ CRLF)])%list |}).
  assert (Hany1 : sim_any s1 = false) by exact Hany.
  split.
  - unfold sendcommand.
    unfold ebind at 1; simpl; rewrite Hc; simpl.
    do 3 (unfold ebind at 1; simpl).
    fold s1. unfold ebind at 1. rewrite (phase1_idle _ _ _ _ _ s1 Hany1).
    reflexivity.
  - unfold sendcommand.
    unfold ebind at 1; simpl; rewrite Hc; simpl.
    do 3 (unfold ebind at 1; simpl).
    fold s1. unfold ebind at 1. rewrite (phase1_idle _ _ _ _ _ s1 Hany1).
    simpl. unfold ebind at 1. simpl.
    unfold ebind at 1. rewrite (drain_idle _ _ _ _ _ s1 Hany1).
    reflexivity.
Qed.

Lemma sendcommand_silent_module_witness :
  sendcommand (VBytes "AT") 0 false 5 (script [(30, line "AT"); (30, line "OK")])
  = (Raise NameError,
     {| now := 0;
        rx := [(30, VBytes (line "AT")); (30, VBytes (line "OK"))];
        tx := [VBytes (line "AT")] |}).
Proof.
  apply (sendcommand_silent_module "AT" 0 4 (script [(30, line "AT"); (30, line "OK")])).
  - discriminate.
  - reflexivity.
Defined.

(** ** Everything that goes through the engine *)

Lemma stuck_not_ret A (o : outcome A) : stuck_out o -> forall a, o <> Ret a.
Proof. intros H a E; subst o; exact H. Qed.

Lemma pure_py_len v : pure_out (py_len v).
Proof. destruct v; simpl; auto. Qed.

Section Callers.

Context {T : Type} `{Transport T}.

Lemma setcommand_outcome cmd args timeout debug fuel :
  post stuck_out (setcommand cmd args timeout debug fuel).
Proof.
  unfold setcommand. rewrite joinargs_tuple. intros t.
  unfold ebind at 1, lift at 1. cbv beta iota.
  unfold ebind at 1, lift at 1.
  destruct (py_add cmd (VBytes "=")) as [v | e |] eqn:E.
  - cbv beta iota. unfold ebind at 1, lift at 1.
    destruct cmd; simpl in E; inversion E; subst v. simpl py_add. cbv beta iota.
    apply (post_bind_stuck (T:=T)).
    intros t'. eapply engine_stuck; [| apply sendcommand_outcome]. discriminate.
  - pose proof (pure_py_add cmd (VBytes "=")) as Q. rewrite E in Q. exact Q.
  - exact I.
Qed.

Lemma executecommand_bytes_outcome c timeout debug fuel :
  post stuck_out (executecommand (VBytes c) timeout debug fuel).
Proof.
  intros t. eapply engine_stuck; [| apply executecommand_outcome]. discriminate.
Qed.

(** A facade that looks its command up and then calls the engine. *)
Ltac through_engine :=
  intros t; unfold ebind at 1, lift at 1; simpl lookup; cbv beta iota;
  first
    [ apply (post_bind_stuck (T:=T));
      first [apply setcommand_outcome | apply querycommand_outcome
            | apply executecommand_bytes_outcome]
    | apply setcommand_outcome
    | apply querycommand_outcome
    | apply executecommand_bytes_outcome ].

Lemma test_outcome fuel : post stuck_out (test fuel).
Proof. unfold test. through_engine. Qed.

Lemma reset_outcome debug fuel : post stuck_out (reset debug fuel).
Proof.
  unfold reset.
  apply post_bind; [auto with quiet | | intros start].
  - destruct debug; [| auto with quiet].
    apply post_bind; [auto with quiet | apply quiet_do_micros | intros us; auto with quiet].
  - through_engine.
Qed.

Lemma getaccesspoint_outcome fuel : post stuck_out (WIFI.getaccesspoint fuel).
Proof. unfold WIFI.getaccesspoint. through_engine. Qed.

Lemma connect_outcome ssid psk fuel : post stuck_out (WIFI.connect ssid psk fuel).
Proof. unfold WIFI.connect. through_engine. Qed.

Lemma disconnect_outcome fuel : post stuck_out (WIFI.disconnect fuel).
Proof. unfold WIFI.disconnect. through_engine. Qed.

Lemma listaccesspoints_outcome args fuel : post stuck_out (WIFI.listaccesspoints args fuel).
Proof. unfold WIFI.listaccesspoints. through_engine. Qed.

Lemma getaccesspointconfig_outcome fuel : post stuck_out (WIFI.getaccesspointconfig fuel).
Proof. unfold WIFI.getaccesspointconfig. apply post_bind_stuck, getmode_outcome. Qed.

Lemma getconnectionstatus_outcome fuel : post stuck_out (IP.getconnectionstatus fuel).
Proof. unfold IP.getconnectionstatus. through_engine. Qed.

Lemma startconnection_outcome protocol dest_ip dest_port fuel :
  post stuck_out (IP.startconnection protocol dest_ip dest_port fuel).
Proof. unfold IP.startconnection. through_engine. Qed.

Lemma ping_outcome destination fuel : post stuck_out (IP.ping destination fuel).
Proof. unfold IP.ping. through_engine. Qed.

Lemma send_outcome data fuel : post stuck_out (IP.send data fuel).
Proof.
  unfold IP.send. intros t.
  unfold ebind at 1, lift at 1; simpl lookup; cbv beta iota.
  unfold ebind at 1, lift at 1.
  pose proof (pure_py_len data) as P.
  destruct (py_len data) as [n | e |]; simpl in P.
  - apply (post_bind_stuck (T:=T)), setcommand_outcome.
  - exact P.
  - contradiction.
Qed.

Lemma setmode_never_returns mode fuel (t : T) r : fst (WIFI.setmode mode fuel t) <> Ret r.
Proof.
  unfold WIFI.setmode, py_in_keys.
  destruct (hashable mode); [| discriminate].
  unfold ebind at 1, lift at 1. cbv beta iota.
  destruct (negb (py_in mode (keys WIFI_MODES))).
  - unfold ebind, lift, raise.
    destruct (py_format_s "Mode '" "' not known!" mode); discriminate.
  - apply stuck_not_ret. revert t. through_engine.
Qed.

End Callers.

(** X4.  [querycommand] and [setcommand] return on no transport, for no
    command and no arguments: each call ends in an exception of the
    interpreter (or, in the model, with the loop budget used up), never in
    one of the module's own errors. *)
Theorem query_and_set_never_return :
  forall (T : Type) (tr : Transport T) cmd args timeout debug fuel (t : T),
    stuck_out (fst (querycommand cmd timeout debug fuel t))
    /\ stuck_out (fst (setcommand cmd args timeout debug fuel t)).
Proof.
  intros T tr cmd args timeout debug fuel t. split.
  - apply querycommand_outcome.
  - apply setcommand_outcome.
Qed.

(** X5.  None of the facades built on the engine returns, on any transport
    and for any arguments: [test], [reset], [WIFI.setmode],
    [WIFI.getaccesspoint], [WIFI.connect], [WIFI.disconnect],
    [WIFI.listaccesspoints], [WIFI.getaccesspointconfig],
    [IP.getconnectionstatus], [IP.startconnection], [IP.send], [IP.ping]. *)
Theorem facades_never_return :
  forall (T : Type) (tr : Transport T) fuel (t : T),
    (forall r, fst (test fuel t) <> Ret r)
    /\ (forall debug r, fst (reset debug fuel t) <> Ret r)
    /\ (forall mode r, fst (WIFI.setmode mode fuel t) <> Ret r)
    /\ (forall r, fst (WIFI.getaccesspoint fuel t) <> Ret r)
    /\ (forall ssid psk r, fst (WIFI.connect ssid psk fuel t) <> Ret r)
    /\ (forall r, fst (WIFI.disconnect fuel t) <> Ret r)
    /\ (forall args r, fst (WIFI.listaccesspoints args fuel t) <> Ret r)
    /\ (forall r, fst (WIFI.getaccesspointconfig fuel t) <> Ret r)
    /\ (forall r, fst (IP.getconnectionstatus fuel t) <> Ret r)
    /\ (forall protocol dest_ip dest_port r,
          fst (IP.startconnection protocol dest_ip dest_port fuel t) <> Ret r)
    /\ (forall data r, fst (IP.send data fuel t) <> Ret r)
    /\ (forall destination r, fst (IP.ping destination fuel t) <> Ret r).
Proof.
  intros T tr fuel t.
  split; [intros r; apply stuck_not_ret, test_outcome |].
  split; [intros debug r; apply stuck_not_ret, reset_outcome |].
  split; [intros mode r; apply setmode_never_returns |].
  split; [intros r; apply stuck_not_ret, getaccesspoint_outcome |].
  split; [intros ssid psk r; apply stuck_not_ret, connect_outcome |].
  split; [intros r; apply stuck_not_ret, disconnect_outcome |].
  split; [intros args r; apply stuck_not_ret, listaccesspoints_outcome |].
  split; [intros r; apply stuck_not_ret, getaccesspointconfig_outcome |].
  split; [intros r; apply stuck_not_ret, getconnectionstatus_outcome |].
  split; [intros protocol dest_ip dest_port r;
          apply stuck_not_ret, startconnection_outcome |].
  split; [intros data r; apply stuck_not_ret, send_outcome |].
  intros destination r; apply stuck_not_ret, ping_outcome.
Qed.

(** ** Unknown modes *)

Lemma py_in_keys_known v : py_in v (keys WIFI_MODES) = true <-> mode_known v.
Proof.
  unfold mode_known.
  destruct v as [| b | z | x | x | l | l]; simpl; try (split; [discriminate | tauto]).
  - destruct b; simpl; split; auto; lia.
  - rewrite orb_false_r, !orb_true_iff, !Z.eqb_eq. lia.
Qed.

Lemma setmode_unhashable (T : Type) (tr : Transport T) mode fuel (t : T) :
  hashable mode = false -> WIFI.setmode mode fuel t = (Raise TypeError, t).
Proof. intros E. unfold WIFI.setmode, py_in_keys. now rewrite E. Qed.

Lemma setmode_unknown (T : Type) (tr : Transport T) mode fuel (t : T) :
  hashable mode = true ->
  py_in mode (keys WIFI_MODES) = false ->
  WIFI.setmode mode fuel t
  = match py_format_s "Mode '" "' not known!" mode with
    | Ret msg => (Raise (UnknownWIFIModeError msg), t)
    | Raise e => (Raise e, t)
    | OutOfFuel => (OutOfFuel, t)
    end.
Proof.
  intros Eh Ei. unfold WIFI.setmode, py_in_keys. rewrite Eh.
  unfold ebind at 1, lift at 1. cbv beta iota. rewrite Ei. simpl negb. cbv iota.
  unfold ebind, lift, raise.
  now destruct (py_format_s "Mode '" "' not known!" mode).
Qed.

Lemma scalar_hashable v : scalar v = true -> hashable v = true.
Proof. destruct v; simpl; congruence. Qed.

(** X6.  [WIFI.setmode] leaves the transport alone when it refuses a mode.
    A mode that is not a list or a tuple and does not compare equal to 1,
    2 or 3 (an integer out of range, but also the text ['1'] or [None]) is
    refused with [UnknownWIFIModeError], the message holding what [str]
    gives for it.  A list is a [TypeError], as it cannot be hashed for the
    test against the keys of [WIFI_MODES].  A tuple gets past that test,
    but the [%] of the message takes it for the tuple of its arguments:
    with other than one element it is a [TypeError], and with one element
    it is a [TypeError] if the element cannot be hashed and otherwise the
    message holds what [str] gives for the element (a text, or a value
    whose text is ASCII), [(7,)] giving the message of [7]. *)
Theorem setmode_rejects_unknown_mode :
  forall (T : Type) (tr : Transport T) fuel (t : T),
    (forall mode,
       scalar mode = true -> ~ mode_known mode ->
       WIFI.setmode mode fuel t
       = (Raise (UnknownWIFIModeError ("Mode '" ++ py_str mode ++ "' not known!")), t))
    /\ (forall l, WIFI.setmode (VList l) fuel t = (Raise TypeError, t))
    /\ (forall l,
          List.length l <> 1%nat ->
          WIFI.setmode (VTuple l) fuel t = (Raise TypeError, t))
    /\ (forall x,
          hashable x = true -> plain_arg x = true ->
          WIFI.setmode (VTuple [x]) fuel t
          = (Raise (UnknownWIFIModeError ("Mode '" ++ py_str x ++ "' not known!")), t))
    /\ (forall x,
          hashable x = false ->
          WIFI.setmode (VTuple [x]) fuel t = (Raise TypeError, t)).
Proof.
  intros T tr fuel t.
  split; [| split; [| split; [| split]]].
  - intros mode Hs Hm.
    rewrite setmode_unknown.
    + now destruct mode.
    + now apply scalar_hashable.
    + destruct (py_in mode (keys WIFI_MODES)) eqn:E; [| reflexivity].
      apply py_in_keys_known in E. contradiction.
  - intros l. now apply setmode_unhashable.
  - intros l Hl.
    destruct (hashable (VTuple l)) eqn:Eh; [| now apply setmode_unhashable].
    rewrite setmode_unknown; [| exact Eh | reflexivity].
    destruct l as [| x [| y r]]; try reflexivity. now contradiction Hl.
  - intros x Hh _.
    rewrite setmode_unknown; [reflexivity | | reflexivity].
    simpl. now rewrite Hh.
  - intros x Hh. apply setmode_unhashable. simpl. now rewrite Hh.
Qed.

Lemma setmode_rejects_unknown_mode_witness :
  WIFI.setmode (VStr "1") 5 (script [])
  = (Raise (UnknownWIFIModeError "Mode '1' not known!"), script [])
  /\ WIFI.setmode (VInt 4) 5 (script [])
     = (Raise (UnknownWIFIModeError "Mode '4' not known!"), script [])
  /\ WIFI.setmode (VList [VInt 1]) 5 (script []) = (Raise TypeError, script [])
  /\ WIFI.setmode (VTuple [VInt 1; VInt 2]) 5 (script []) = (Raise TypeError, script [])
  /\ WIFI.setmode (VTuple [VInt 7]) 5 (script [])
     = (Raise (UnknownWIFIModeError "Mode '7' not known!"), script []).
Proof.
  destruct (setmode_rejects_unknown_mode Sim sim_transport 5 (script []))
    as [H1 [H2 [H3 [H4 _]]]].
  split; [apply (H1 (VStr "1")); [reflexivity | simpl; tauto] |].
  split; [apply (H1 (VInt 4)); [reflexivity | unfold mode_known; simpl; lia] |].
  split; [apply (H2 [VInt 1]) |].
  split; [apply (H3 [VInt 1; VInt 2]); simpl; lia |].
  apply (H4 (VInt 7)); reflexivity.
Defined.

(** ** Text within ASCII

    On ASCII text a character is a byte: the length is the number of
    bytes, and the text is quoted like the bytes it consists of. *)

Lemma utf8_chars_ascii s :
  is_ascii_text s = true ->
  utf8_chars s = map (fun c => String c EmptyString) (list_ascii_of_string s).
Proof.
  induction s as [| c r IH]; [reflexivity |].
  cbn [is_ascii_text]. intros H. apply andb_true_iff in H as [_ Hr].
  cbn [utf8_chars list_ascii_of_string map]. rewrite (IH Hr).
  destruct r as [| d r']; [reflexivity |].
  cbn [is_ascii_text] in Hr. apply andb_true_iff in Hr as [Hd _].
  cbn [list_ascii_of_string map starts_with_cont].
  assert (E : is_cont d = false).
  { unfold is_cont. apply Nat.ltb_lt in Hd.
    apply andb_false_iff. left. apply Nat.leb_gt. exact Hd. }
  now rewrite E.
Qed.

Lemma text_length_ascii s :
  is_ascii_text s = true -> text_length s = Z.of_nat (String.length s).
Proof.
  intros H. unfold text_length. rewrite (utf8_chars_ascii s H), length_map.
  f_equal. induction s as [| c r IH]; [reflexivity |].
  cbn [is_ascii_text] in H. apply andb_true_iff in H as [_ Hr].
  simpl. now rewrite (IH Hr).
Qed.

Lemma escape_text_char_ascii q c :
  q = SQUOTE \/ q = DQUOTE ->
  (nat_of_ascii c <? 128)%nat = true ->
  escape_text_char q (String c EmptyString) = escape_char q c.
Proof.
  intros [-> | ->] H;
    destruct c as [[] [] [] [] [] [] [] []];
    vm_compute in H; try discriminate H; vm_compute; reflexivity.
Qed.

Lemma quote_for_cases s : quote_for s = SQUOTE \/ quote_for s = DQUOTE.
Proof. unfold quote_for. destruct (_ && _); auto. Qed.

Lemma quoted_text_ascii s : is_ascii_text s = true -> quoted_text s = quoted s.
Proof.
  intros H. unfold quoted_text, quoted. rewrite (utf8_chars_ascii s H), map_map.
  do 3 f_equal.
  pose proof (quote_for_cases s) as Q. revert Q. generalize (quote_for s). intros q Q.
  induction s as [| c r IH]; [reflexivity |].
  cbn [is_ascii_text] in H. apply andb_true_iff in H as [Hc Hr].
  cbn [list_ascii_of_string map].
  now rewrite (escape_text_char_ascii q c Q Hc), (IH Hr).
Qed.

(** ** What the callers put on the wire *)

Lemma ebind_lift_state A B (m : eff Sim A) (f : A -> outcome B) s :
  snd (ebind m (fun a => lift (f a)) s) = snd (m s).
Proof. unfold ebind. destruct (m s) as [[a | e |] s1]; reflexivity. Qed.

Lemma ebind_stuck_state A B (m : eff Sim A) (k : A -> eff Sim B) s :
  stuck_out (fst (m s)) -> snd (ebind m k s) = snd (m s).
Proof. unfold ebind. destruct (m s) as [[a | e |] s1]; simpl; tauto. Qed.

Lemma append_assoc (a b c : string) : ((a ++ b) ++ c = a ++ (b ++ c))%string.
Proof. induction a as [| x a IH]; simpl; [| rewrite IH]; reflexivity. Qed.

Lemma append_nil_r (a : string) : (a ++ EmptyString = a)%string.
Proof. induction a as [| x a IH]; simpl; [| rewrite IH]; reflexivity. Qed.

Lemma append_nonempty a b : b <> EmptyString -> (a ++ b)%string <> EmptyString.
Proof. destruct a; simpl; [tauto | discriminate]. Qed.

Lemma executecommand_sim_run c timeout debug fuel s :
  c <> EmptyString ->
  tx (snd (executecommand (VBytes c) timeout debug fuel s))
  = (tx s ++ [VBytes (c ++ CRLF)])%list
  /\ now s <= now (snd (executecommand (VBytes c) timeout debug fuel s)) <= now s + 1000.
Proof.
  intros Hc. unfold executecommand. rewrite ebind_lift_state.
  destruct (sendcommand (VBytes c) timeout debug fuel s) as [o s'] eqn:E.
  apply (sendcommand_sim_run _ (VBytes (c ++ CRLF))) in E;
    [| now apply py_eq_bytes_nonempty | reflexivity].
  destruct E as [Ht [Hn _]]. split; assumption.
Qed.

Lemma setcommand_state c args timeout debug fuel s :
  snd (setcommand (VBytes c) args timeout debug fuel s)
  = snd (sendcommand (VBytes ((c ++ "=") ++ join_with "," (map rendered args)))
           timeout debug fuel s).
Proof.
  unfold setcommand. rewrite joinargs_tuple.
  do 3 (unfold ebind at 1, lift at 1; simpl py_add; cbv beta iota).
  apply ebind_lift_state.
Qed.

Lemma setcommand_sim_run c args timeout debug fuel s :
  tx (snd (setcommand (VBytes c) args timeout debug fuel s))
  = (tx s ++ [VBytes (c ++ "=" ++ join_with "," (map rendered args) ++ CRLF)])%list
  /\ now s <= now (snd (setcommand (VBytes c) args timeout debug fuel s)) <= now s + 1000.
Proof.
  rewrite setcommand_state.
  destruct (sendcommand _ timeout debug fuel s) as [o s'] eqn:E.
  apply (sendcommand_sim_run _
           (VBytes (((c ++ "=") ++ join_with "," (map rendered args)) ++ CRLF))) in E.
  - rewrite !append_assoc in E. destruct E as [Ht [Hn _]]. split; assumption.
  - apply py_eq_bytes_nonempty.
    rewrite append_assoc. apply append_nonempty. discriminate.
  - reflexivity.
Qed.

(** X7.  [setcommand] writes one line and nothing else: the command, [=],
    the arguments as [joinargs] renders them with commas between, and
    [\r\n]; the clock advances by a second at most and lines are taken
    off the front of the pending ones only.  This holds for the empty
    command as well, which the check of [sendcommand] no longer sees
    behind the [=].  The arguments are texts, or values whose text is
    ASCII. *)
Theorem setcommand_writes_once c args timeout debug fuel s :
  forallb plain_arg args = true ->
  tx (snd (setcommand (VBytes c) args timeout debug fuel s))
  = (tx s ++ [VBytes (c ++ "=" ++ join_with "," (map rendered args) ++ CRLF)])%list
  /\ now s <= now (snd (setcommand (VBytes c) args timeout debug fuel s)) <= now s + 1000
  /\ exists k, rx (snd (setcommand (VBytes c) args timeout debug fuel s)) = skipn k (rx s).
Proof.
  intros _.
  rewrite setcommand_state.
  destruct (sendcommand _ timeout debug fuel s) as [o s'] eqn:E.
  apply (sendcommand_sim_run _
           (VBytes (((c ++ "=") ++ join_with "," (map rendered args)) ++ CRLF))) in E.
  - rewrite !append_assoc in E. exact E.
  - apply py_eq_bytes_nonempty.
    rewrite append_assoc. apply append_nonempty. discriminate.
  - reflexivity.
Qed.

Lemma setcommand_writes_once_witness :
  tx (snd (setcommand (VBytes "AT+CWJAP") [VStr ("caf" ++ e_acute); VStr "secret"; VInt 6]
             0 false 5 (script [])))
  = [VBytes (line ("AT+CWJAP=" ++ dq ("caf" ++ e_acute) ++ "," ++ dq "secret" ++ ",6"))].
Proof.
  destruct (setcommand_writes_once "AT+CWJAP"
              [VStr ("caf" ++ e_acute); VStr "secret"; VInt 6] 0 false 5 (script []))
    as [Ht _]; [reflexivity |].
  exact Ht.
Defined.

(** X8.  [WIFI.listaccesspoints] does not send its arguments one by one:
    the tuple goes through [setcommand] as a single argument and is written
    as the text [str] gives for the whole tuple, so that a search for the
    SSID [home] goes out as [AT+CWLAP=('home',)], and one for [home] on
    channel 6 as [AT+CWLAP=('home', 6)], with a blank in it.  The arguments
    are values whose text is ASCII. *)
Theorem listaccesspoints_writes_tuple_text :
  (forall args fuel s,
     forallb ascii_value args = true ->
     tx (snd (WIFI.listaccesspoints args fuel s))
     = (tx s ++ [VBytes ("AT+CWLAP=" ++ py_str (VTuple args) ++ CRLF)])%list)
  /\ (forall fuel s,
     tx (snd (WIFI.listaccesspoints [VStr "home"] fuel s))
     = (tx s ++ [VBytes (line "AT+CWLAP=('home',)")])%list)
  /\ (forall fuel s,
     tx (snd (WIFI.listaccesspoints [VStr "home"; VInt 6] fuel s))
     = (tx s ++ [VBytes (line "AT+CWLAP=('home', 6)")])%list).
Proof.
  assert (G : forall args fuel s,
     tx (snd (WIFI.listaccesspoints args fuel s))
     = (tx s ++ [VBytes ("AT+CWLAP=" ++ py_str (VTuple args) ++ CRLF)])%list).
  { intros args fuel s. unfold WIFI.listaccesspoints.
    unfold ebind at 1, lift at 1; simpl lookup; cbv beta iota.
    destruct (setcommand_sim_run "AT+CWLAP" [VTuple args] 0 true fuel s) as [Ht _].
    exact Ht. }
  split; [intros args fuel s _; apply G |].
  split; intros fuel s.
  - apply (G [VStr "home"]).
  - apply (G [VStr "home"; VInt 6]).
Qed.

Lemma listaccesspoints_writes_tuple_text_witness :
  tx (snd (WIFI.listaccesspoints [VStr "it's"; VInt 11] 5 (script [])))
  = [VBytes (line ("AT+CWLAP=(" ++ dq "it's" ++ ", 11)"))].
Proof.
  destruct listaccesspoints_writes_tuple_text as [H _].
  apply (H [VStr "it's"; VInt 11] 5%nat (script [])). reflexivity.
Defined.

(** X9.  [IP.send] never writes its data: the length goes out as
    [AT+CIPSEND=<n>], the call ends in the engine, and the [uart.write] of
    the data that follows is not reached. *)
Theorem send_never_writes_data data fuel s :
  tx (snd (IP.send (VBytes data) fuel s))
  = (tx s ++ [VBytes ("AT+CIPSEND=" ++ string_of_Z (Z.of_nat (String.length data))
                      ++ CRLF)])%list.
Proof.
  unfold IP.send.
  do 2 (unfold ebind at 1, lift at 1; simpl lookup; simpl py_len; cbv beta iota).
  rewrite ebind_stuck_state by apply setcommand_outcome.
  destruct (setcommand_sim_run "AT+CIPSEND" [VInt (Z.of_nat (String.length data))]
              0 true fuel s) as [Ht _].
  exact Ht.
Qed.

(** X10.  [reset] stops at its command: it writes [AT+RST] and nothing
    else, and the clock advances by a second at most, so the two waits for
    the boot messages (up to 3 s, then 6 s) are never taken. *)
Theorem reset_stops_at_command debug fuel s :
  tx (snd (reset debug fuel s)) = (tx s ++ [VBytes (line "AT+RST")])%list
  /\ now s <= now (snd (reset debug fuel s)) <= now s + 1000.
Proof.
  assert (E : snd (reset debug fuel s)
              = snd (executecommand (VBytes "AT+RST") 0 true fuel s)).
  { unfold reset.
    assert (E : forall k : option Z -> eff Sim unit,
              ebind (if debug then us <- do_micros ;; eret (Some us) else eret None) k s
              = k (if debug then Some (1000 * now s) else None) s)
      by (intros k; destruct debug; reflexivity).
    rewrite E.
    unfold ebind at 1, lift at 1; simpl lookup; cbv beta iota.
    apply ebind_stuck_state, executecommand_bytes_outcome. }
  rewrite E. apply executecommand_sim_run. discriminate.
Qed.

(** ** A single argument to [joinargs] *)

Lemma utf8_chars_rendered s :
  map rendered (map VStr (utf8_chars s)) = map dq (utf8_chars s).
Proof. now rewrite map_map. Qed.

(** X11.  [joinargs] called with one argument does not render it: it
    iterates over it and renders the elements (texts, or values whose text
    is ASCII), and fails as the iteration does.  A single text is taken
    apart into its characters, each in quotes of its own, a character
    outside ASCII with all the bytes of its encoding; a single integer is
    a [TypeError], and no argument at all gives the empty string. *)
Theorem joinargs_single_argument :
  (forall v items,
     py_iter v = Ret items ->
     forallb plain_arg items = true ->
     joinargs [v] = Ret (VBytes (join_with "," (map rendered items))))
  /\ (forall v e, py_iter v = Raise e -> joinargs [v] = Raise e)
  /\ (forall s,
     joinargs [VStr s] = Ret (VBytes (join_with "," (map dq (utf8_chars s)))))
  /\ (forall z, joinargs [VInt z] = Raise TypeError)
  /\ joinargs [] = Ret (VBytes "")
  /\ joinargs [VStr "ab"] = Ret (VBytes (dq "a" ++ "," ++ dq "b"))
  /\ joinargs [VStr e_acute] = Ret (VBytes (dq e_acute))
  /\ joinargs [VStr ("a" ++ e_acute)] = Ret (VBytes (dq "a" ++ "," ++ dq e_acute)).
Proof.
  assert (G : forall v,
     joinargs [v]
     = (items <~ py_iter v ;; Ret (VBytes (join_with "," (map rendered items))))).
  { intros v. unfold joinargs. simpl List.length. simpl Z.eqb. cbv iota.
    change (py_getitem (VTuple [v]) 0) with (Ret v). simpl obind at 1.
    destruct (py_iter v) as [items | e |]; simpl; try reflexivity.
    pose proof (joinargs_loop_rendered items []) as E; simpl in E.
    rewrite E; simpl. now rewrite bytes_items_map. }
  split; [intros v items E _; now rewrite G, E |].
  split; [intros v e E; now rewrite G, E |].
  split; [| repeat split].
  intros s. rewrite G. simpl. now rewrite utf8_chars_rendered.
Qed.

Lemma joinargs_single_argument_witness :
  joinargs [VList [VStr "net"; VInt 6]] = Ret (VBytes (dq "net" ++ ",6"))
  /\ joinargs [VNone] = Raise TypeError.
Proof.
  destruct joinargs_single_argument as [H1 [H2 _]].
  split.
  - apply (H1 (VList [VStr "net"; VInt 6]) [VStr "net"; VInt 6]); reflexivity.
  - apply (H2 VNone TypeError). reflexivity.
Defined.

(** ** Fields of a line *)

Lemma prefix_char c d r :
  prefix (String c EmptyString) (String d r) = Ascii.eqb c d.
Proof.
  simpl. destruct (ascii_dec c d) as [E | N].
  - subst. rewrite Ascii.eqb_refl. now destruct r.
  - symmetry. now apply Ascii.eqb_neq.
Qed.

(** Splitting at a character gives one field more than there are
    separators. *)
Lemma split_go_char_length c cur s :
  List.length (split_go (String c EmptyString) 0 cur s) = S (count_char c s).
Proof.
  revert cur; induction s as [| d r IH]; intros cur; [reflexivity |].
  cbn [split_go count_char]. rewrite prefix_char.
  destruct (Ascii.eqb c d); simpl; now rewrite IH.
Qed.

(** X12.  [parseaccesspointstr] returns [None] exactly for the lines that
    do not have four commas; it does not look at quotes, so an SSID with a
    comma in it gets its line dropped. *)
Theorem parseaccesspointstr_none ap_str :
  count_char "," ap_str <> 4%nat <-> parseaccesspointstr (VBytes ap_str) = Ret None.
Proof.
  unfold parseaccesspointstr, py_split, split_on. simpl obind.
  pose proof (split_go_char_length "," EmptyString ap_str) as L.
  rewrite length_map. rewrite L.
  destruct (Z.of_nat (S (count_char "," ap_str)) =? 5) eqn:E.
  - apply Z.eqb_eq in E. split; [lia |]. intros H.
    destruct (split_go "," 0 "" ap_str) as [| a [| b [| c [| d [| e [| f r]]]]]];
      simpl in L; try lia; simpl in H.
    destruct (parse_int a); simpl in H; [| discriminate].
    destruct (parse_int c); simpl in H; [| discriminate].
    destruct (parse_int e); discriminate.
  - apply Z.eqb_neq in E. split; [reflexivity | lia].
Qed.

(** X13.  A line of five fields whose first, third and fifth are decimal
    integers gives a record with their values; the second and fourth
    fields become [ssid] and [mac] as they stand, quotes included. *)
Theorem parseaccesspointstr_record (ap_str f1 f2 f3 f4 f5 : string) :
  split_on "," ap_str = [f1; f2; f3; f4; f5] ->
  is_decimal_integer f1 = true ->
  is_decimal_integer f3 = true ->
  is_decimal_integer f5 = true ->
  exists e r c,
    parse_int f1 = Some e /\ parse_int f3 = Some r /\ parse_int f5 = Some c
    /\ parseaccesspointstr (VBytes ap_str)
       = Ret (Some {| encryption_protocol := e; ssid := VBytes f2;
                      rssi := r; mac := VBytes f4; channel := c |}).
Proof.
  intros Hsplit H1 H3 H5.
  assert (D : forall f, is_decimal_integer f = true -> exists z, parse_int f = Some z).
  { intros f Hf. destruct (parse_int f) as [z |] eqn:P; [now exists z |].
    apply parse_int_decimal in P. congruence. }
  destruct (D _ H1) as [e Pe], (D _ H3) as [r Pr], (D _ H5) as [c Pc].
  exists e, r, c. repeat split; try assumption.
  unfold parseaccesspointstr, py_split. rewrite Hsplit. simpl.
  rewrite Pe, Pr, Pc. reflexivity.
Qed.

Lemma parseaccesspointstr_record_witness :
  exists e r c,
    parse_int "4" = Some e /\ parse_int "-70" = Some r /\ parse_int "11" = Some c
    /\ parseaccesspointstr (VBytes "4,cafe,-70,0a:1b,11")
       = Ret (Some {| encryption_protocol := e; ssid := VBytes "cafe";
                      rssi := r; mac := VBytes "0a:1b"; channel := c |}).
Proof.
  apply (parseaccesspointstr_record "4,cafe,-70,0a:1b,11" "4" "cafe" "-70" "0a:1b" "11");
    reflexivity.
Defined.

Lemma parseaccesspointstr_none_witness :
  parseaccesspointstr (VBytes ("0," ++ dq "my,net" ++ ",-55," ++ dq "aa:bb" ++ ",6"))
  = Ret None.
Proof.
  apply (proj1 (parseaccesspointstr_none
                  ("0," ++ dq "my,net" ++ ",-55," ++ dq "aa:bb" ++ ",6"))).
  simpl. lia.
Defined.

(** ** Integers written and read back *)

Lemma digit_not_space c : is_digit c = true -> is_space c = false.
Proof.
  unfold is_digit, ascii_in, is_space.
  change (nat_of_ascii "0") with 48%nat. change (nat_of_ascii "9") with 57%nat.
  intros H. apply andb_true_iff in H as [H1 H2].
  apply Nat.leb_le in H1, H2.
  apply orb_false_iff; split.
  - apply Nat.eqb_neq. lia.
  - apply andb_false_iff. right. apply Nat.leb_gt. lia.
Qed.

Lemma digit_not_char c d : is_digit c = true -> is_digit d = false -> Ascii.eqb c d = false.
Proof.
  intros Hc Hd. apply Ascii.eqb_neq. intros E; subst. congruence.
Qed.

Lemma only_digits_uint d : only_digits (NilEmpty.string_of_uint d) = true.
Proof. induction d; simpl; auto. Qed.

Lemma lstrip_digits s : only_digits s = true -> lstrip s = s.
Proof.
  destruct s as [| c r]; [reflexivity |]. simpl.
  intros H. apply andb_true_iff in H as [H _].
  now rewrite (digit_not_space c H).
Qed.

Lemma rstrip_digits s : only_digits s = true -> rstrip s = s.
Proof.
  induction s as [| c r IH]; [reflexivity |]. simpl.
  intros H. apply andb_true_iff in H as [Hc Hr].
  rewrite (IH Hr). destruct r; [| reflexivity].
  now rewrite (digit_not_space c Hc).
Qed.

Lemma digits_value_step c acc r :
  is_digit c = true ->
  digits_value false acc (String c r)
  = digits_value false (10 * acc + digit_value c) r.
Proof. intros H; simpl; now rewrite H. Qed.

Lemma digits_value_uint_acc d acc :
  digits_value false (Z.pos acc) (NilEmpty.string_of_uint d)
  = Some (Z.pos (Pos.of_uint_acc d acc)).
Proof.
  revert acc; induction d; intros acc; cbn [NilEmpty.string_of_uint Pos.of_uint_acc];
    try reflexivity;
    rewrite digits_value_step by reflexivity;
    rewrite <- IHd; f_equal;
    match goal with
    | |- context [digit_value ?c] =>
        let n := eval vm_compute in (digit_value c) in
        change (digit_value c) with n
    end;
    lia.
Qed.

Lemma digits_value_uint d :
  digits_value false 0 (NilEmpty.string_of_uint d) = Some (Z.of_N (Pos.of_uint d)).
Proof.
  induction d; cbn [NilEmpty.string_of_uint Pos.of_uint];
    try reflexivity;
    rewrite digits_value_step by reflexivity;
    [exact IHd | ..];
    match goal with
    | |- context [digit_value ?c] =>
        let n := eval vm_compute in (10 * 0 + digit_value c) in
        change (10 * 0 + digit_value c) with n
    end;
    apply digits_value_uint_acc.
Qed.

(** The first digit of a number is read like the ones after it. *)
Lemma unsigned_value_digits c r :
  is_digit c = true -> unsigned_value (String c r) = digits_value false 0 (String c r).
Proof. intros H. simpl. now rewrite H. Qed.

Lemma to_uint_string_nonempty p :
  NilEmpty.string_of_uint (Pos.to_uint p) <> EmptyString.
Proof.
  intros E.
  pose proof (digits_value_uint (Pos.to_uint p)) as D.
  rewrite E, DecimalPos.Unsigned.of_to in D. discriminate D.
Qed.

Lemma nilzero_string_of_pos p :
  NilZero.string_of_uint (Pos.to_uint p) = NilEmpty.string_of_uint (Pos.to_uint p).
Proof.
  pose proof (to_uint_string_nonempty p) as N.
  destruct (Pos.to_uint p); try reflexivity. now contradiction N.
Qed.

Lemma parse_int_digits d :
  NilEmpty.string_of_uint d <> EmptyString ->
  parse_int (NilEmpty.string_of_uint d) = Some (Z.of_N (Pos.of_uint d)).
Proof.
  intros N. unfold parse_int.
  pose proof (only_digits_uint d) as A.
  rewrite (lstrip_digits _ A), (rstrip_digits _ A).
  destruct (NilEmpty.string_of_uint d) as [| c r] eqn:E; [now contradiction N |].
  simpl in A. apply andb_true_iff in A as [Hc _].
  unfold split_sign.
  rewrite (digit_not_char c "-" Hc eq_refl), (digit_not_char c "+" Hc eq_refl).
  rewrite (unsigned_value_digits c r Hc), <- E, digits_value_uint. reflexivity.
Qed.

(** The text [str] gives for an integer is read back by [int] as that
    integer. *)
Lemma parse_int_string_of_Z z : parse_int (string_of_Z z) = Some z.
Proof.
  unfold string_of_Z. destruct z as [| p | p]; [reflexivity | |]; simpl Z.to_int.
  - simpl NilZero.string_of_int. rewrite nilzero_string_of_pos.
    rewrite parse_int_digits by apply to_uint_string_nonempty.
    now rewrite DecimalPos.Unsigned.of_to.
  - simpl NilZero.string_of_int. rewrite nilzero_string_of_pos.
    pose proof (only_digits_uint (Pos.to_uint p)) as A.
    pose proof (to_uint_string_nonempty p) as N.
    unfold parse_int.
    change (lstrip (String "-" ?s)) with (String "-" s).
    assert (R : rstrip (String "-" (NilEmpty.string_of_uint (Pos.to_uint p)))
                = String "-" (NilEmpty.string_of_uint (Pos.to_uint p))).
    { simpl. rewrite (rstrip_digits _ A).
      destruct (NilEmpty.string_of_uint (Pos.to_uint p)); [now contradiction N | reflexivity]. }
    rewrite R. simpl split_sign.
    destruct (NilEmpty.string_of_uint (Pos.to_uint p)) as [| c r] eqn:E;
      [now contradiction N |].
    simpl in A. apply andb_true_iff in A as [Hc _].
    rewrite (unsigned_value_digits c r Hc), <- E, digits_value_uint,
      DecimalPos.Unsigned.of_to.
    reflexivity.
Qed.

(** X14.  An integer that [joinargs] has rendered is read back by [int] as
    the same integer, from the argument string of a set command and from
    the text [str] gives, for every integer, negative ones included. *)
Theorem int_reads_back_rendered_integer z :
  (args_str <~ joinargs [VTuple [VInt z]] ;; py_int args_str) = Ret z
  /\ py_int (VBytes (rendered (VInt z))) = Ret z
  /\ py_int (VStr (py_str (VInt z))) = Ret z.
Proof.
  rewrite joinargs_tuple. simpl.
  rewrite parse_int_string_of_Z. repeat split.
Qed.

(** ** Reading the answers of the module *)

Lemma prefix_append a b : prefix a (a ++ b) = true.
Proof.
  induction a as [| c a IH]; simpl; [now destruct b |].
  destruct (ascii_dec c c); [exact IH | contradiction].
Qed.

(** Passing over the rest of a separator. *)
Lemma split_go_skip sep u cur t :
  split_go sep (String.length u) cur (u ++ t) = split_go sep 0 cur t.
Proof.
  induction u as [| c u IH]; simpl; [reflexivity | exact IH].
Qed.

(** Without the separator in it, a text is one field. *)
Lemma split_go_absent sep cur t :
  occurs sep t = false -> split_go sep 0 cur t = [(cur ++ t)%string].
Proof.
  revert cur; induction t as [| c r IH]; intros cur H.
  - simpl. now rewrite append_nil_r.
  - cbn [occurs] in H. apply orb_false_iff in H as [Hp Ho].
    cbn [split_go]. rewrite Hp. rewrite (IH _ Ho).
    now rewrite append_assoc.
Qed.

Lemma split_on_leading sep t :
  sep <> EmptyString -> occurs sep t = false ->
  split_on sep (sep ++ t) = [EmptyString; t].
Proof.
  intros Hs Ho. unfold split_on.
  destruct sep as [| a u]; [contradiction |].
  change ((String a u ++ t)%string) with (String a (u ++ t)).
  cbn [split_go].
  change (String a (u ++ t)) with ((String a u ++ t)%string).
  rewrite prefix_append. simpl Nat.pred.
  rewrite split_go_skip. now rewrite (split_go_absent _ _ _ Ho).
Qed.

Lemma list_ascii_of_string_app a b :
  list_ascii_of_string (a ++ b)
  = (list_ascii_of_string a ++ list_ascii_of_string b)%list.
Proof. induction a as [| c a IH]; simpl; [| rewrite IH]; reflexivity. Qed.

(** [[1:-1]] takes the first and the last element off. *)
Lemma slice_list_inner A (x y : A) l :
  slice_list (Some 1) (Some (-1)) (x :: l ++ [y])%list = l.
Proof.
  unfold slice_list, clip.
  replace (List.length (x :: l ++ [y])%list) with (S (S (List.length l)))
    by (simpl; rewrite length_app; simpl; lia).
  change (1 <? 0) with false. change (-1 <? 0) with true. cbv iota.
  replace (Z.to_nat (Z.min (Z.of_nat (S (S (List.length l)))) 1)) with 1%nat by lia.
  replace (Z.to_nat (Z.max 0 (Z.of_nat (S (S (List.length l))) + -1)
                     - Z.min (Z.of_nat (S (S (List.length l)))) 1))
    with (List.length l) by lia.
  simpl skipn. rewrite firstn_app, firstn_all, Nat.sub_diag. simpl.
  now rewrite app_nil_r.
Qed.

Lemma slice_string_dq s : slice_string (Some 1) (Some (-1)) (dq s) = s.
Proof.
  unfold slice_string, dq. simpl list_ascii_of_string.
  rewrite list_ascii_of_string_app. simpl list_ascii_of_string.
  rewrite slice_list_inner. apply string_of_list_ascii_of_string.
Qed.

Lemma accesspoint_of_answer_eq answer :
  WIFI.accesspoint_of_answer answer
  = if py_eq answer (VBytes "No AP") then Ret VNone
    else parts <~ py_split answer (VBytes "+CWJAP:") ;;
         field <~ list_item parts 1 ;;
         py_slice field (Some 1) (Some (-1)).
Proof. reflexivity. Qed.

(** X15.  What [WIFI.getaccesspoint] makes of the answer to [AT+CWJAP?]:
    the answer [No AP] gives [None]; [+CWJAP:"<ssid>"] gives the SSID
    without its quotes; and any other answer without the prefix [+CWJAP:]
    in it ends in the unchecked [IndexError]. *)
Theorem accesspoint_of_answer_cases :
  WIFI.accesspoint_of_answer (VBytes "No AP") = Ret VNone
  /\ (forall ssid,
        occurs "+CWJAP:" (dq ssid) = false ->
        WIFI.accesspoint_of_answer (VBytes ("+CWJAP:" ++ dq ssid)) = Ret (VBytes ssid))
  /\ (forall answer,
        answer <> "No AP" ->
        occurs "+CWJAP:" answer = false ->
        WIFI.accesspoint_of_answer (VBytes answer) = Raise IndexError).
Proof.
  split; [reflexivity | split].
  - intros ssid Ho. rewrite accesspoint_of_answer_eq.
    change (py_eq (VBytes ("+CWJAP:" ++ dq ssid)) (VBytes "No AP")) with false.
    cbv iota. unfold py_split.
    rewrite (split_on_leading "+CWJAP:" (dq ssid)) by (discriminate || exact Ho).
    simpl. now rewrite slice_string_dq.
  - intros answer Hn Ho. rewrite accesspoint_of_answer_eq.
    assert (E : py_eq (VBytes answer) (VBytes "No AP") = false)
      by (simpl; now apply String.eqb_neq).
    rewrite E. unfold py_split, split_on.
    rewrite (split_go_absent "+CWJAP:" EmptyString answer Ho). reflexivity.
Qed.

Lemma accesspoint_of_answer_cases_witness :
  WIFI.accesspoint_of_answer (VBytes ("+CWJAP:" ++ dq "home")) = Ret (VBytes "home")
  /\ WIFI.accesspoint_of_answer (VBytes "busy p...") = Raise IndexError.
Proof.
  destruct accesspoint_of_answer_cases as [_ [H1 H2]].
  split.
  - apply (H1 "home"). reflexivity.
  - apply (H2 "busy p..."); [discriminate | reflexivity].
Defined.

Lemma has_char_app c a b : has_char c (a ++ b) = has_char c a || has_char c b.
Proof.
  induction a as [| d a IH]; simpl; [reflexivity |].
  now rewrite IH, orb_assoc.
Qed.

Lemma has_char_dq c s : Ascii.eqb c DQUOTE = false -> has_char c (dq s) = has_char c s.
Proof.
  intros H. unfold dq. simpl. rewrite H, has_char_app. simpl. rewrite H.
  now rewrite !orb_false_r.
Qed.

Lemma has_char_uint c d :
  is_digit c = false -> has_char c (NilEmpty.string_of_uint d) = false.
Proof.
  intros H. induction d; simpl; try reflexivity; rewrite IHd, orb_false_r;
    apply Ascii.eqb_neq; intros E; subst; discriminate H.
Qed.

(** The text of an integer has digits and a minus sign in it at most. *)
Lemma has_char_string_of_Z c z :
  is_digit c = false -> Ascii.eqb c "-" = false -> has_char c (string_of_Z z) = false.
Proof.
  intros Hd Hm. unfold string_of_Z.
  destruct z as [| p | p]; simpl Z.to_int; simpl NilZero.string_of_int.
  - simpl. rewrite orb_false_r. apply Ascii.eqb_neq. intros E; subst; discriminate Hd.
  - rewrite nilzero_string_of_pos. now apply has_char_uint.
  - rewrite nilzero_string_of_pos. simpl. rewrite Hm. now apply has_char_uint.
Qed.

Lemma split_go_char_absent c cur t :
  has_char c t = false -> split_go (String c EmptyString) 0 cur t = [(cur ++ t)%string].
Proof.
  revert cur; induction t as [| d r IH]; intros cur H.
  - simpl. now rewrite append_nil_r.
  - simpl in H. apply orb_false_iff in H as [Hc Hr].
    cbn [split_go]. rewrite prefix_char, Hc, (IH _ Hr).
    now rewrite append_assoc.
Qed.

Lemma split_go_char_field c cur a b :
  has_char c a = false ->
  split_go (String c EmptyString) 0 cur (a ++ String c b)
  = (cur ++ a)%string :: split_go (String c EmptyString) 0 EmptyString b.
Proof.
  revert cur; induction a as [| d r IH]; intros cur H.
  - simpl append at 1. cbn [split_go]. rewrite prefix_char, Ascii.eqb_refl.
    simpl. now rewrite append_nil_r.
  - simpl in H. apply orb_false_iff in H as [Hc Hr].
    change ((String d r ++ String c b)%string) with (String d (r ++ String c b)).
    cbn [split_go]. rewrite prefix_char, Hc, (IH _ Hr).
    now rewrite append_assoc.
Qed.

Lemma obind_ret A B (a : A) (k : A -> outcome B) : obind (Ret a) k = k a.
Proof. reflexivity. Qed.

Lemma config_of_answer_eq answer :
  WIFI.config_of_answer answer
  = (parts <~ py_split answer (VBytes ":") ;;
     field <~ list_item parts 1 ;;
     params <~ py_split field (VBytes ",") ;;
     match params with
     | [s; p; channel; encryption_protocol] =>
         c <~ py_int channel ;;
         e <~ py_int encryption_protocol ;;
         Ret {| ap_ssid := s; ap_password := p;
                ap_channel := c; ap_encryption_protocol := e |}
     | _ => Raise ValueError
     end).
Proof. reflexivity. Qed.

(** X16.  What [WIFI.getaccesspointconfig] makes of an answer agrees with
    what [joinargs] writes for [WIFI.setaccesspointconfig]: if the module
    answers [+CWSAP:] followed by the argument string of the set command,
    the record has the channel and the encryption protocol that were set,
    and the SSID and the password in their double quotes.  The SSID and
    the password must be free of commas and colons. *)
Theorem config_reads_back_arguments (s p : string) (channel protocol : Z) :
  has_char "," s = false -> has_char ":" s = false ->
  has_char "," p = false -> has_char ":" p = false ->
  (args_str <~ joinargs [VTuple [VStr s; VStr p; VInt channel; VInt protocol]] ;;
   answer <~ py_add (VBytes "+CWSAP:") args_str ;;
   WIFI.config_of_answer answer)
  = Ret {| ap_ssid := VBytes (dq s); ap_password := VBytes (dq p);
           ap_channel := channel; ap_encryption_protocol := protocol |}.
Proof.
  intros Hs1 Hs2 Hp1 Hp2.
  rewrite joinargs_tuple. cbv beta iota delta [obind py_add].
  rewrite config_of_answer_eq.
  assert (Hrest : join_with "," (map rendered [VStr s; VStr p; VInt channel; VInt protocol])
                  = (dq s ++ String "," (dq p ++ String ","
                       (string_of_Z channel ++ String "," (string_of_Z protocol))))%string)
    by reflexivity.
  rewrite Hrest.
  remember (dq s ++ String "," (dq p ++ String ","
              (string_of_Z channel ++ String "," (string_of_Z protocol))))%string
    as rest eqn:Erest.
  assert (Hcolon : has_char ":" rest = false).
  { rewrite Erest.
    rewrite has_char_app. change (has_char ":" (String "," ?x)) with (has_char ":" x).
    rewrite has_char_app. change (has_char ":" (String "," ?x)) with (has_char ":" x).
    rewrite has_char_app. change (has_char ":" (String "," ?x)) with (has_char ":" x).
    rewrite !has_char_dq by reflexivity.
    rewrite Hs2, Hp2, !has_char_string_of_Z by reflexivity. reflexivity. }
  unfold py_split at 1. unfold split_on.
  change ("+CWSAP:" ++ rest)%string with ("+CWSAP" ++ String ":" rest)%string.
  rewrite split_go_char_field by reflexivity.
  rewrite (split_go_char_absent ":" EmptyString rest Hcolon).
  rewrite obind_ret.
  change (list_item (map VBytes [?a; ?b]) 1) with (Ret (VBytes b)).
  rewrite obind_ret. change (EmptyString ++ rest)%string with rest.
  unfold py_split, split_on. rewrite Erest.
  rewrite split_go_char_field by (rewrite has_char_dq by reflexivity; exact Hs1).
  rewrite split_go_char_field by (rewrite has_char_dq by reflexivity; exact Hp1).
  rewrite split_go_char_field by (apply has_char_string_of_Z; reflexivity).
  rewrite split_go_char_absent by (apply has_char_string_of_Z; reflexivity).
  rewrite obind_ret. cbn [map append].
  unfold py_int. rewrite !parse_int_string_of_Z. reflexivity.
Qed.

Lemma config_reads_back_arguments_witness :
  (args_str <~ joinargs [VTuple [VStr "net"; VStr "12345678"; VInt 11; VInt 3]] ;;
   answer <~ py_add (VBytes "+CWSAP:") args_str ;;
   WIFI.config_of_answer answer)
  = Ret {| ap_ssid := VBytes (dq "net"); ap_password := VBytes (dq "12345678");
           ap_channel := 11; ap_encryption_protocol := 3 |}.
Proof.
  apply (config_reads_back_arguments "net" "12345678" 11 3); reflexivity.
Defined.

(** ** The loops and the classification on their own *)

Lemma list_item_last A (l : list A) x : list_item (l ++ [x])%list (-1) = Ret x.
Proof.
  unfold list_item. rewrite length_app. simpl List.length.
  change (-1 <? 0) with true. cbv iota.
  replace ((Z.of_nat (List.length l + 1) + -1 <? 0)
           || (Z.of_nat (List.length l + 1) <=? Z.of_nat (List.length l + 1) + -1))
    with false
    by (symmetry; apply orb_false_iff; split; [apply Z.ltb_ge | apply Z.leb_gt]; lia).
  replace (Z.to_nat (Z.of_nat (List.length l + 1) + -1)) with (List.length l) by lia.
  rewrite nth_error_app2 by lia. now rewrite Nat.sub_diag.
Qed.

Lemma drain_step f output okay t at_ms l rest w :
  at_ms <= t ->
  drain (S f) false None output okay
    {| now := t; rx := (at_ms, VBytes l) :: rest; tx := w |}
  = drain f false None (output ++ [VBytes l])%list
      (if String.eqb (rstrip l) "OK" then true else okay)
      {| now := t; rx := rest; tx := w |}.
Proof.
  intros Hat. apply Z.leb_le in Hat.
  unfold drain at 1; fold (drain (T:=Sim)).
  unfold ebind at 1.
  change (do_any {| now := t; rx := (at_ms, VBytes l) :: rest; tx := w |})
    with (Ret (at_ms <=? t), {| now := t; rx := (at_ms, VBytes l) :: rest; tx := w |}).
  rewrite Hat. cbv beta iota.
  unfold ebind at 1. unfold receive.
  unfold ebind at 1. unfold do_readline.
  cbn [uart_readline sim_transport]. unfold sim_readline. cbn [rx now tx].
  rewrite Hat. cbv beta iota.
  unfold when, last_stripped, ebind, eret, lift.
  rewrite list_item_last. simpl py_rstrip. cbv beta iota.
  change (py_eq (VBytes (rstrip l)) (VBytes "OK")) with (String.eqb (rstrip l) "OK").
  destruct (String.eqb (rstrip l) "OK"); reflexivity.
Qed.

(** X18.  The second loop reads everything that can be read at once, in
    the order it came, and notes an [OK] on any of the lines; it leaves
    the clock as it is. *)
Theorem drain_collects_available fuel output okay t lines w :
  Forall (fun l => fst l <= t) lines ->
  (List.length lines < fuel)%nat ->
  drain fuel false None output okay
    {| now := t; rx := map (fun l => (fst l, VBytes (snd l))) lines; tx := w |}
  = (Ret ((output ++ map (fun l => VBytes (snd l)) lines)%list,
          okay || existsb (fun l => String.eqb (rstrip (snd l)) "OK") lines),
     {| now := t; rx := []; tx := w |}).
Proof.
  revert fuel output okay; induction lines as [| [at_ms l] rest IH];
    intros fuel output okay Hav Hlen.
  - destruct fuel as [| f]; [simpl in Hlen; lia |].
    simpl map. rewrite drain_idle by reflexivity.
    now rewrite app_nil_r, orb_false_r.
  - destruct fuel as [| f]; [simpl in Hlen; lia |].
    inversion Hav as [| x xs Hat Hrest]; subst. simpl in Hat.
    cbn [map fst snd]. rewrite drain_step by exact Hat.
    rewrite IH by (try assumption; simpl in Hlen; lia).
    rewrite <- app_assoc. cbn [existsb snd app].
    destruct (String.eqb (rstrip l) "OK"), okay; reflexivity.
Qed.

Lemma drain_collects_available_witness :
  drain 3 false None [VBytes (line "AT+GMR")] false
    {| now := 10;
       rx := map (fun l => (fst l, VBytes (snd l))) [(0, line "0018000902"); (5, line "OK")];
       tx := [] |}
  = (Ret ([VBytes (line "AT+GMR"); VBytes (line "0018000902"); VBytes (line "OK")], true),
     {| now := 10; rx := []; tx := [] |}).
Proof.
  apply (drain_collects_available 3 [VBytes (line "AT+GMR")] false 10
           [(0, line "0018000902"); (5, line "OK")] []).
  - repeat constructor; simpl; lia.
  - simpl; lia.
Defined.

Lemma handle_output_eq {T : Type} `{Transport T} (timeout : Z) debug fuel start
    output x okay ct (t : T) :
  handle_output timeout debug fuel start (output ++ [VBytes x])%list okay ct t
  = ebind
      (if String.eqb (rstrip x) "ERROR" then raise (CommandError "Command error!")
       else if String.eqb (rstrip x) "OK"
            then eret ((output ++ [VBytes x])%list, true, ct)
            else if negb okay
                 then cmd_timeout <- (if timeout =? 0 then eret (300 : Q)
                                      else when debug (trace start) ;;
                                           eret (inject_Z timeout / 10)%Q) ;;
                      phase2 fuel cmd_timeout debug start (output ++ [VBytes x])%list okay
                 else eret ((output ++ [VBytes x])%list, okay, ct))
      (fun st => let '(output, okay, cmd_timeout) := st in
                 when (negb okay && Qeq_bool cmd_timeout 0 && debug) (trace start) ;;
                 eret output) t.
Proof.
  unfold handle_output, last_stripped.
  unfold ebind at 1. unfold ebind at 1. unfold lift at 1. rewrite list_item_last.
  cbv beta iota. unfold lift at 1. simpl py_rstrip. cbv beta iota.
  reflexivity.
Qed.

(** X17.  The classification of lines 114-117, on the lines collected so
    far, for every transport: a last line that strips to [ERROR] raises
    [CommandError], also when an [OK] was seen before; a last line that
    strips to [OK] ends the call with the lines; so does any other last
    line once an [OK] was seen.  In these cases nothing is read or waited
    for.  On an empty collection the block would fail with [IndexError]. *)
Theorem handle_output_classifies :
  forall (T : Type) (tr : Transport T) timeout debug fuel start output x okay ct (t : T),
    (rstrip x = "ERROR" ->
     handle_output timeout debug fuel start (output ++ [VBytes x])%list okay ct t
     = (Raise (CommandError "Command error!"), t))
    /\ (rstrip x = "OK" ->
        handle_output timeout debug fuel start (output ++ [VBytes x])%list okay ct t
        = (Ret (output ++ [VBytes x])%list, t))
    /\ (okay = true -> rstrip x <> "ERROR" ->
        handle_output timeout debug fuel start (output ++ [VBytes x])%list okay ct t
        = (Ret (output ++ [VBytes x])%list, t))
    /\ handle_output timeout debug fuel start [] okay ct t = (Raise IndexError, t).
Proof.
  intros T tr timeout debug fuel start output x okay ct t.
  split; [| split; [| split]].
  - intros E. rewrite handle_output_eq, E. reflexivity.
  - intros E. rewrite handle_output_eq, E. reflexivity.
  - intros Ho Hx. subst okay. rewrite handle_output_eq.
    apply String.eqb_neq in Hx. rewrite Hx.
    destruct (String.eqb (rstrip x) "OK"); reflexivity.
  - reflexivity.
Qed.

Lemma handle_output_classifies_witness :
  handle_output 0 false 5 None [VBytes (line "AT+CWJAP?"); VBytes (line "ERROR")]
    true 0 (script [])
  = (Raise (CommandError "Command error!"), script [])
  /\ handle_output 0 false 5 None [VBytes (line "AT"); VBytes (line "OK")]
       false 0 (script [])
     = (Ret [VBytes (line "AT"); VBytes (line "OK")], script [])
  /\ handle_output 0 false 5 None [VBytes (line "OK"); VBytes (line "ready")]
       true 0 (script [])
     = (Ret [VBytes (line "OK"); VBytes (line "ready")], script []).
Proof.
  split; [| split].
  - destruct (handle_output_classifies Sim sim_transport 0 false 5 None
                [VBytes (line "AT+CWJAP?")] (line "ERROR") true 0 (script []))
      as [H1 _].
    apply H1. reflexivity.
  - destruct (handle_output_classifies Sim sim_transport 0 false 5 None
                [VBytes (line "AT")] (line "OK") false 0 (script []))
      as [_ [H2 _]].
    apply H2. reflexivity.
  - destruct (handle_output_classifies Sim sim_transport 0 false 5 None
                [VBytes (line "OK")] (line "ready") true 0 (script []))
      as [_ [_ [H3 _]]].
    apply H3; [reflexivity | discriminate].
Defined.


(** ** The commands the facades send *)

Lemma querycommand_sim_run c timeout debug fuel s :
  tx (snd (querycommand (VBytes c) timeout debug fuel s))
  = (tx s ++ [VBytes (c ++ "?" ++ CRLF)])%list.
Proof.
  unfold querycommand.
  unfold ebind at 1, lift at 1; simpl py_add; cbv beta iota.
  rewrite ebind_lift_state.
  destruct (sendcommand (VBytes (c ++ "?")) timeout debug fuel s) as [o s'] eqn:E.
  apply (sendcommand_sim_run _ (VBytes ((c ++ "?") ++ CRLF))) in E.
  - rewrite append_assoc in E. exact (proj1 E).
  - apply py_eq_bytes_nonempty, append_nonempty. discriminate.
  - reflexivity.
Qed.

Ltac first_lookup :=
  unfold ebind at 1, lift at 1; simpl lookup; cbv beta iota.

Ltac wire_set :=
  match goal with
  | |- tx (snd (setcommand (VBytes ?c) ?args ?t ?d ?f ?s)) = _ =>
      rewrite (proj1 (setcommand_sim_run c args t d f s));
      cbn [map rendered join_with py_str py_repr];
      rewrite ?append_assoc; reflexivity
  end.

Lemma getmode_sim_run fuel s :
  tx (snd (WIFI.getmode fuel s)) = (tx s ++ [VBytes (line "AT+CWMODE?")])%list.
Proof.
  unfold WIFI.getmode. first_lookup. rewrite ebind_lift_state.
  apply (querycommand_sim_run "AT+CWMODE").
Qed.

(** X19.  Each facade puts exactly one line on the wire, whatever the
    module answers.  [WIFI.setaccesspointconfig] and
    [WIFI.getaccesspointconfig] in particular send the mode query
    [AT+CWMODE?] and nothing after it: the configuration is neither set
    nor asked for.  Text arguments go out in double quotes. *)
Theorem facades_write_one_line :
  forall fuel s,
    tx (snd (test fuel s)) = (tx s ++ [VBytes (line "AT")])%list
    /\ tx (snd (WIFI.getmode fuel s)) = (tx s ++ [VBytes (line "AT+CWMODE?")])%list
    /\ tx (snd (WIFI.setmode (VInt 2) fuel s))
       = (tx s ++ [VBytes (line "AT+CWMODE=2")])%list
    /\ tx (snd (WIFI.getaccesspoint fuel s))
       = (tx s ++ [VBytes (line "AT+CWJAP?")])%list
    /\ (forall ssid psk,
          tx (snd (WIFI.connect (VStr ssid) (VStr psk) fuel s))
          = (tx s ++ [VBytes ("AT+CWJAP=" ++ dq ssid ++ "," ++ dq psk ++ CRLF)])%list)
    /\ tx (snd (WIFI.disconnect fuel s)) = (tx s ++ [VBytes (line "AT+CWQAP")])%list
    /\ tx (snd (WIFI.listallaccesspoints fuel s))
       = (tx s ++ [VBytes (line "AT+CWLAP")])%list
    /\ (forall ssid password channel encrypt_proto,
          tx (snd (WIFI.setaccesspointconfig ssid password channel encrypt_proto fuel s))
          = (tx s ++ [VBytes (line "AT+CWMODE?")])%list)
    /\ tx (snd (WIFI.getaccesspointconfig fuel s))
       = (tx s ++ [VBytes (line "AT+CWMODE?")])%list
    /\ tx (snd (IP.getconnectionstatus fuel s))
       = (tx s ++ [VBytes (line "AT+CIPSTATUS")])%list
    /\ (forall protocol host port,
          tx (snd (IP.startconnection (VStr protocol) (VStr host) (VInt port) fuel s))
          = (tx s ++ [VBytes ("AT+CIPSTART=" ++ dq protocol ++ "," ++ dq host ++ ","
                              ++ string_of_Z port ++ CRLF)])%list)
    /\ (forall host,
          tx (snd (IP.ping (VStr host) fuel s))
          = (tx s ++ [VBytes ("AT+PING=" ++ dq host ++ CRLF)])%list).
Proof.
  intros fuel s.
  split.
  { unfold test. first_lookup.
    rewrite ebind_stuck_state by apply executecommand_bytes_outcome.
    apply (executecommand_sim_run "AT"). discriminate. }
  split; [apply getmode_sim_run |].
  split.
  { unfold WIFI.setmode.
    change (py_in_keys (VInt 2) (keys WIFI_MODES)) with (@Ret bool true).
    unfold ebind at 1, lift at 1. cbv beta iota.
    change (negb true) with false. cbv iota.
    first_lookup.
    rewrite ebind_stuck_state by apply setcommand_outcome.
    wire_set. }
  split.
  { unfold WIFI.getaccesspoint. first_lookup. rewrite ebind_lift_state.
    apply (querycommand_sim_run "AT+CWJAP"). }
  split.
  { intros ssid psk. unfold WIFI.connect. first_lookup.
    rewrite ebind_stuck_state by apply setcommand_outcome.
    wire_set. }
  split.
  { unfold WIFI.disconnect. first_lookup.
    rewrite ebind_stuck_state by apply executecommand_bytes_outcome.
    apply (executecommand_sim_run "AT+CWQAP"). discriminate. }
  split.
  { unfold WIFI.listallaccesspoints. first_lookup.
    rewrite ebind_stuck_state by apply executecommand_bytes_outcome.
    apply (executecommand_sim_run "AT+CWLAP"). discriminate. }
  split.
  { intros ssid password channel encrypt_proto. unfold WIFI.setaccesspointconfig.
    rewrite ebind_stuck_state by apply getmode_outcome.
    apply getmode_sim_run. }
  split.
  { unfold WIFI.getaccesspointconfig.
    rewrite ebind_stuck_state by apply getmode_outcome.
    apply getmode_sim_run. }
  split.
  { unfold IP.getconnectionstatus. first_lookup.
    apply (executecommand_sim_run "AT+CIPSTATUS"). discriminate. }
  split.
  { intros protocol host port. unfold IP.startconnection. first_lookup.
    rewrite ebind_stuck_state by apply setcommand_outcome.
    wire_set. }
  intros host. unfold IP.ping. first_lookup.
  wire_set.
Qed.
